(** * Subscription and slot lifecycle engine of the Ultra Notifier server

    A shallow embedding of the route handlers of the Express server that
    decide subscriptions, pauses, licence validation, warnings and expiry,
    together with the properties stated about them.

    Modelling conventions.
    - JavaScript numbers are exact rationals ([Q]); IEEE-754 rounding is
      not modelled.  Results of arithmetic are compared with [==].
    - A handler is synchronous: it runs to completion on one reading of the
      clock, so every [Date.now()] of one handler is the parameter [now].
    - [db] is the in-memory snapshot; a handler maps a snapshot to its
      response and the next snapshot.  [saveDB] only serialises the
      snapshot and is not modelled.
    - Nullable strings ([null], [undefined]) are [option string]; the empty
      string is falsy as in JavaScript.
    - Admin routes are modelled from the callback that runs after the
      [requireAdmin] middleware has let the request through. *)

From Stdlib Require Import QArith Qround Qminmax Qabs Lqa.
From Stdlib Require Import ZArith Lia List String Bool Arith.
Import ListNotations.

Open Scope Q_scope.

(** ** JavaScript comparisons and truthiness *)

(** [a < b] on numbers. *)
Definition Qltb (a b : Q) : bool := negb (Qle_bool b a).

(** Truthiness of a nullable string. *)
Definition truthy (s : option string) : bool :=
  match s with
  | Some s => negb (String.eqb s EmptyString)
  | None => false
  end.

(** Strict equality [a === b] of two nullable strings. *)
Definition str_opt_eqb (a b : option string) : bool :=
  match a, b with
  | Some x, Some y => String.eqb x y
  | None, None => true
  | _, _ => false
  end.

(** [Math.round(x)]: the nearest integer, halves towards plus infinity. *)
Definition Math_round (x : Q) : Z := Qfloor (x + (1 # 2)).

(** [x || dflt] on a number that may be missing. *)
Definition num_or (x : option Q) (dflt : Q) : Q :=
  match x with
  | Some v => if Qeq_bool v 0 then dflt else v
  | None => dflt
  end.

Definition hour_ms : Q := 3600000.

(** ** Data model *)

Record HwidEvent := mkHwidEvent {
  ev_hwid : string;
  ev_timestamp : Q;
  ev_action : string
}.

Record User := mkUser {
  id : string;
  discord_id : string;
  license_key : string;
  hwid : option string;
  roblox_username : option string;
  balance : Q;
  subscription_tier : nat;
  subscription_expires : Q;
  warnings : nat;
  paused : bool;
  pause_locked : bool;
  paused_time_remaining : option Q;
  paused_at : option Q;
  unpause_requested : bool;
  hwid_history : list HwidEvent;
  last_active : Q
}.

Record Plan := mkPlan {
  name : string;
  tier : nat;
  price : Q;
  slots : Z;
  adminOnly : bool;
  enabled : bool
}.

Definition PlanTable := list (nat * Plan).

Record WarningEntry := mkWarningEntry {
  w_user_id : string;
  w_reason : string;
  w_timestamp : Q;
  w_admin : string
}.

Record DB := mkDB {
  users : list User;
  banned_hwids : list string;
  db_warnings : list WarningEntry;
  global_paused : bool;
  sales_closed : bool;
  plans : option PlanTable;
  global_min_hours : option Q
}.

(** Calls made to the Discord role collaborator. *)
Inductive RoleCall :=
| AssignRole (discord : string) (t : nat)
| RemoveRoles (discord : string).

(** The user created on first identity linkage. *)
Definition createdUser (uid discord key : string) (now : Q) : User :=
  mkUser uid discord key None None 0 0%nat 0 0%nat false false None None
         false [] now.

(** ** The [updates] object of [updateUser] *)

Inductive Update :=
| SetHwid (h : option string)
| SetRoblox (r : option string)
| SetBalance (b : Q)
| SetTier (t : nat)
| SetExpires (e : Q)
| SetWarnings (w : nat)
| SetPaused (p : bool)
| SetPauseLocked (p : bool)
| SetPausedTimeRemaining (r : option Q)
| SetPausedAt (a : option Q)
| SetUnpauseRequested (r : bool)
| SetHwidHistory (h : list HwidEvent)
| SetLastActive (t : Q).

Definition apply_update (u : User) (up : Update) : User :=
  let '(mkUser i d k h r b t e w p pl ptr pa ur hh la) := u in
  match up with
  | SetHwid h' => mkUser i d k h' r b t e w p pl ptr pa ur hh la
  | SetRoblox r' => mkUser i d k h r' b t e w p pl ptr pa ur hh la
  | SetBalance b' => mkUser i d k h r b' t e w p pl ptr pa ur hh la
  | SetTier t' => mkUser i d k h r b t' e w p pl ptr pa ur hh la
  | SetExpires e' => mkUser i d k h r b t e' w p pl ptr pa ur hh la
  | SetWarnings w' => mkUser i d k h r b t e w' p pl ptr pa ur hh la
  | SetPaused p' => mkUser i d k h r b t e w p' pl ptr pa ur hh la
  | SetPauseLocked pl' => mkUser i d k h r b t e w p pl' ptr pa ur hh la
  | SetPausedTimeRemaining ptr' =>
      mkUser i d k h r b t e w p pl ptr' pa ur hh la
  | SetPausedAt pa' => mkUser i d k h r b t e w p pl ptr pa' ur hh la
  | SetUnpauseRequested ur' => mkUser i d k h r b t e w p pl ptr pa ur' hh la
  | SetHwidHistory hh' => mkUser i d k h r b t e w p pl ptr pa ur hh' la
  | SetLastActive la' => mkUser i d k h r b t e w p pl ptr pa ur hh la'
  end.

(** [{ ...user, ...updates }] *)
Definition apply_updates (u : User) (ups : list Update) : User :=
  fold_left apply_update ups u.

(** ** Helper functions of the server *)

Definition set_users (d : DB) (us : list User) : DB :=
  mkDB us (banned_hwids d) (db_warnings d) (global_paused d) (sales_closed d)
       (plans d) (global_min_hours d).

Definition set_banned_hwids (d : DB) (bs : list string) : DB :=
  mkDB (users d) bs (db_warnings d) (global_paused d) (sales_closed d)
       (plans d) (global_min_hours d).

Definition set_db_warnings (d : DB) (ws : list WarningEntry) : DB :=
  mkDB (users d) (banned_hwids d) ws (global_paused d) (sales_closed d)
       (plans d) (global_min_hours d).

Definition set_global_paused (d : DB) (g : bool) : DB :=
  mkDB (users d) (banned_hwids d) (db_warnings d) g (sales_closed d)
       (plans d) (global_min_hours d).

(** [findUser({ id })]: an empty id is falsy and finds nothing. *)
Definition findUser_id (d : DB) (uid : string) : option User :=
  if String.eqb uid EmptyString then None
  else find (fun u => String.eqb (id u) uid) (users d).

(** [findUser({ license_key })] *)
Definition findUser_license_key (d : DB) (key : string) : option User :=
  if String.eqb key EmptyString then None
  else find (fun u => String.eqb (license_key u) key) (users d).

(** The array part of [updateUser]: the first user whose id matches is
    replaced by its merge with [updates]. *)
Fixpoint update_first (uid : string) (ups : list Update) (us : list User)
  : list User :=
  match us with
  | [] => []
  | u :: rest =>
      if String.eqb (id u) uid then apply_updates u ups :: rest
      else u :: update_first uid ups rest
  end.

Definition updateUser (d : DB) (uid : string) (ups : list Update) : DB :=
  set_users d (update_first uid ups (users d)).

Definition isHWIDBanned (d : DB) (h : string) : bool :=
  existsb (String.eqb h) (banned_hwids d).

(** [h && isHWIDBanned(h)] for a nullable device id. *)
Definition banned_device (d : DB) (h : option string) : bool :=
  match h with
  | Some s => truthy h && isHWIDBanned d s
  | None => false
  end.

(** ** Plan configuration *)

Definition DEFAULT_PLANS : PlanTable :=
  [ (1%nat, mkPlan "Bronze" 1 1 2 false true);
    (2%nat, mkPlan "Silver" 2 2 2 false true);
    (3%nat, mkPlan "Gold" 3 (7 # 2) 4 false true);
    (4%nat, mkPlan "Diamond" 4 (17 # 4) 2 false true);
    (5%nat, mkPlan "Diamond Private" 5 5 1 true true) ].

Definition getGlobalMinHours (d : DB) : Q := num_or (global_min_hours d) 2.

Definition getPlans (d : DB) : PlanTable :=
  match plans d with
  | Some t => t
  | None => DEFAULT_PLANS
  end.

Fixpoint lookup_plan (t : nat) (tbl : PlanTable) : option Plan :=
  match tbl with
  | [] => None
  | (k, p) :: rest => if Nat.eqb k t then Some p else lookup_plan t rest
  end.

(** [PLANS[tier]] *)
Definition PLANS (d : DB) (t : nat) : option Plan := lookup_plan t (getPlans d).

(** [plan.slots || 2] *)
Definition maxSlots_of (p : Plan) : Z := if Z.eqb (slots p) 0 then 2%Z else slots p.

(** ** Subscribe: [app.post('/api/subscribe')] *)

Record SubscribeRequest := mkSubscribeRequest {
  req_user : option string;   (* id of [req.user], if authenticated *)
  req_is_admin : bool;        (* [isAdmin(req.user)] *)
  req_tier : nat;             (* [req.body.tier] *)
  req_hours : option Q        (* [parseFloat(req.body.hours)], [None] = NaN *)
}.

Inductive SubscribeResponse :=
| NotAuthenticated
| AccountBanned
| WarningsBanned
| SalesClosed
| PurchasesPaused
| BadHours (minHours : Q)
| InvalidTier
| PlanDisabled
| PlanAdminOnly
| SlotsFull (activeUsersOnTier : nat) (maxSlots : Z)
| InsufficientBalance (needed have : Q)
| Subscribed (new_balance expires hours_added converted_hours total_hours : Q)
             (plan_slots : Z)
| ServerError.

Record Outcome (R : Type) := mkOutcome {
  response : R;
  db_after : DB;
  role_calls : list RoleCall
}.
Arguments mkOutcome {R} _ _ _.
Arguments response {R} _.
Arguments db_after {R} _.
Arguments role_calls {R} _.

(** A handler that answers without touching the snapshot. *)
Definition reply {R : Type} (d : DB) (r : R) : Outcome R := mkOutcome r d [].

(** [Math.round(parseFloat(hours) * 10) / 10] *)
Definition parsedHours_of (h : Q) : Q := inject_Z (Math_round (h * 10)) / 10.

(** The slot filter of the handler, for the requesting user [uid]. *)
Definition active_on_tier (now : Q) (t : nat) (uid : string) (u : User) : bool :=
  Nat.eqb (subscription_tier u) t
  && Qltb now (subscription_expires u)
  && negb (String.eqb (id u) uid).

Definition activeUsersOnTier_of (now : Q) (d : DB) (t : nat) (uid : string) : nat :=
  List.length (filter (active_on_tier now t uid) (users d)).

(** The fair-conversion block: [None] when [oldPlan] is undefined and the
    property access throws. *)
Definition convertedHours_of (now : Q) (d : DB) (user : User) (plan : Plan)
  : option Q :=
  if Qltb now (subscription_expires user) && Nat.ltb 0 (subscription_tier user)
  then
    match PLANS d (subscription_tier user) with
    | None => None
    | Some oldPlan =>
        let remainingMs := subscription_expires user - now in
        let remainingHours := remainingMs / hour_ms in
        let remainingValue := remainingHours * price oldPlan in
        Some (remainingValue / price plan)
    end
  else Some 0.

Definition subscribe (now : Q) (d : DB) (rq : SubscribeRequest)
  : Outcome SubscribeResponse :=
  match req_user rq with
  | None => reply d NotAuthenticated
  | Some ruid =>
    let user := findUser_id d ruid in
    if match user with Some u => banned_device d (hwid u) | None => false end
    then reply d AccountBanned else
    if match user with Some u => Nat.leb 2 (warnings u) | None => false end
    then reply d WarningsBanned else
    if sales_closed d then reply d SalesClosed else
    if global_paused d then reply d PurchasesPaused else
    let minHours := getGlobalMinHours d in
    match req_hours rq with
    | None => reply d (BadHours minHours)
    | Some h =>
      let parsedHours := parsedHours_of h in
      if Qltb parsedHours minHours || Qltb 168 parsedHours
      then reply d (BadHours minHours) else
      match PLANS d (req_tier rq) with
      | None => reply d InvalidTier
      | Some plan =>
        if negb (enabled plan) then reply d PlanDisabled else
        if adminOnly plan && negb (req_is_admin rq) then reply d PlanAdminOnly else
        let maxSlots := maxSlots_of plan in
        match user with
        | None =>
          (* [user.id] throws inside the filter as soon as one user
             passes the first two tests, [user.balance] throws after it *)
          if existsb (fun u => Nat.eqb (subscription_tier u) (req_tier rq)
                               && Qltb now (subscription_expires u)) (users d)
          then reply d ServerError
          else if Z.leb maxSlots 0 then reply d (SlotsFull 0 maxSlots)
          else reply d ServerError
        | Some user =>
          let activeUsersOnTier :=
            activeUsersOnTier_of now d (req_tier rq) (id user) in
          if Z.leb maxSlots (Z.of_nat activeUsersOnTier)
          then reply d (SlotsFull activeUsersOnTier maxSlots) else
          let cost := parsedHours * price plan in
          if Qltb (balance user) cost
          then reply d (InsufficientBalance cost (balance user)) else
          match convertedHours_of now d user plan with
          | None => reply d ServerError
          | Some convertedHours =>
            let totalHours := convertedHours + parsedHours in
            let newExpires := now + totalHours * 3600 * 1000 in
            let newBalance := balance user - cost in
            mkOutcome
              (Subscribed newBalance newExpires parsedHours convertedHours
                          totalHours (slots plan))
              (updateUser d (id user)
                 [SetBalance newBalance; SetTier (req_tier rq);
                  SetExpires newExpires])
              [AssignRole (discord_id user) (req_tier rq)]
          end
        end
      end
    end
  end.

(** ** Licence validation: [app.get('/api/validate')] *)

Inductive ValidateResponse :=
| NoKeyProvided
| Banned
| InvalidKey
| Expired
| HWIDMismatch
| Valid (t : nat) (plan : option Plan).

(** The [updates] object built for a valid request. *)
Definition validate_updates (now : Q) (user : User) (hwid_q roblox : option string)
  : list Update :=
  [SetLastActive now]
  ++ (if negb (truthy (hwid user)) && truthy hwid_q
      then [SetHwid hwid_q;
            SetHwidHistory
              (hwid_history user
               ++ [mkHwidEvent
                     (match hwid_q with Some s => s | None => EmptyString end)
                     now "set"])]
      else [])
  ++ (if truthy roblox then [SetRoblox roblox] else []).

Definition validate (now : Q) (d : DB) (key hwid_q roblox : option string)
  : ValidateResponse * DB :=
  match key with
  | None => (NoKeyProvided, d)
  | Some k =>
    if negb (truthy key) then (NoKeyProvided, d) else
    if banned_device d hwid_q then (Banned, d) else
    match findUser_license_key d k with
    | None => (InvalidKey, d)
    | Some user =>
      if Nat.leb 2 (warnings user) then (Banned, d) else
      if banned_device d (hwid user) then (Banned, d) else
      let isActive := Qltb now (subscription_expires user) in
      if negb isActive then (Expired, d) else
      if truthy (hwid user) && negb (str_opt_eqb (hwid user) hwid_q)
      then (HWIDMismatch, d) else
      let updates := validate_updates now user hwid_q roblox in
      let d' := if Nat.ltb 1 (List.length updates)
                then updateUser d (id user) updates else d in
      (Valid (subscription_tier user) (PLANS d (subscription_tier user)), d')
    end
  end.

(** ** Warnings: [app.post('/api/admin/warn/:userId')] *)

Inductive WarnResponse :=
| WarnUserNotFound
| Warned (newWarnings : nat) (auto_banned : bool).

(** [admin] is [req.user.username] and [reason] is
    [reason || 'No reason provided']. *)
Definition warn (now : Q) (d : DB) (admin userId reason : string)
  : WarnResponse * DB :=
  match findUser_id d userId with
  | None => (WarnUserNotFound, d)
  | Some user =>
    let newWarnings := (warnings user + 1)%nat in
    let d1 := updateUser d userId [SetWarnings newWarnings] in
    let d2 := set_db_warnings d1
                (db_warnings d1 ++ [mkWarningEntry userId reason now admin]) in
    match hwid user with
    | Some h =>
      if Nat.leb 2 newWarnings && truthy (hwid user) then
        if negb (isHWIDBanned d2 h)
        then (Warned newWarnings true,
              set_banned_hwids d2 (banned_hwids d2 ++ [h]))
        else (Warned newWarnings false, d2)
      else (Warned newWarnings false, d2)
    | None => (Warned newWarnings false, d2)
    end
  end.

(** ** Pause system *)

Inductive PauseResponse :=
| PauseUserNotFound
| PauseToggled (nowPaused : bool).

(** [user.paused_time_remaining || 0] *)
Definition timeRemaining_of (u : User) : Q := num_or (paused_time_remaining u) 0.

(** [app.post('/api/admin/pause/:userId')]: toggles the pause of one user. *)
Definition admin_pause (now : Q) (d : DB) (userId : string)
  : PauseResponse * DB :=
  match findUser_id d userId with
  | None => (PauseUserNotFound, d)
  | Some user =>
    let newPausedState := negb (paused user) in
    if newPausedState then
      let timeRemaining := Qmax 0 (subscription_expires user - now) in
      (PauseToggled true,
       updateUser d userId
         [SetPaused true; SetPauseLocked false;
          SetPausedTimeRemaining (Some timeRemaining);
          SetPausedAt (Some now)])
    else
      let timeRemaining := timeRemaining_of user in
      let newExpires := now + timeRemaining in
      (PauseToggled false,
       updateUser d userId
         [SetPaused false; SetPauseLocked false;
          SetExpires newExpires;
          SetPausedTimeRemaining None;
          SetPausedAt None])
  end.

Inductive UnpauseResponse :=
| UnpauseNotAuthenticated
| NotPaused
| PauseLocked
| Unpaused
| UnpauseServerError.

(** [app.post('/api/unpause')]: self-service unpause. *)
Definition unpause (now : Q) (d : DB) (session : option string)
  : UnpauseResponse * DB :=
  match session with
  | None => (UnpauseNotAuthenticated, d)
  | Some uid =>
    match findUser_id d uid with
    | None => (UnpauseServerError, d)      (* [user.paused] on undefined *)
    | Some user =>
      if negb (paused user) then (NotPaused, d) else
      if pause_locked user then (PauseLocked, d) else
      let timeRemaining := timeRemaining_of user in
      let newExpires := now + timeRemaining in
      (Unpaused,
       updateUser d uid
         [SetPaused false; SetUnpauseRequested false;
          SetExpires newExpires;
          SetPausedTimeRemaining None;
          SetPausedAt None])
    end
  end.

(** [app.post('/api/admin/pause-all')]: flips the global flag only. *)
Definition pause_all (d : DB) : bool * DB :=
  let d' := set_global_paused d (negb (global_paused d)) in
  (global_paused d', d').

Inductive LockAllResponse :=
| NoPausedUsersToLock
| LockedAll (locked_count : nat).

(** The two filters that select [usersToLock]. *)
Definition usersToLock_of (now : Q) (d : DB) : list User :=
  if global_paused d then
    filter (fun u => Nat.ltb 0 (subscription_tier u)
                     && Qltb now (subscription_expires u)
                     && negb (pause_locked u)) (users d)
  else
    filter (fun u => paused u && negb (pause_locked u)) (users d).

(** One turn of the [forEach] of the handler. *)
Definition lock_one (d : DB) (user : User) : DB :=
  if global_paused d && negb (paused user)
  then updateUser d (id user) [SetPaused true; SetPauseLocked true]
  else updateUser d (id user) [SetPauseLocked true].

(** [app.post('/api/admin/lock-all-paused')] *)
Definition lock_all_paused (now : Q) (d : DB) : LockAllResponse * DB :=
  let usersToLock := usersToLock_of now d in
  match usersToLock with
  | [] => (NoPausedUsersToLock, d)
  | _ => (LockedAll (List.length usersToLock), fold_left lock_one usersToLock d)
  end.

Inductive LockResponse :=
| LockUserNotFound
| LockNotPaused
| LockToggled (locked : bool).

(** [app.post('/api/admin/lock-pause/:userId')] *)
Definition lock_pause (d : DB) (userId : string) : LockResponse * DB :=
  match findUser_id d userId with
  | None => (LockUserNotFound, d)
  | Some user =>
    if negb (paused user) then (LockNotPaused, d) else
    let newLockedState := negb (pause_locked user) in
    (LockToggled newLockedState,
     updateUser d userId [SetPauseLocked newLockedState])
  end.

(** ** Removing hours: [app.post('/api/admin/remove-hours/:userId')] *)

Inductive RemoveHoursResponse :=
| RemoveUserNotFound
| InvalidHours
| HoursRemoved (hours_remaining : Q).

(** [hours] is [parseFloat(req.body.hours)], [None] for NaN. *)
Definition remove_hours (now : Q) (d : DB) (userId : string) (hours : option Q)
  : RemoveHoursResponse * DB :=
  match findUser_id d userId with
  | None => (RemoveUserNotFound, d)
  | Some user =>
    let hoursToRemove := num_or hours 0 in
    if Qle_bool hoursToRemove 0 then (InvalidHours, d) else
    let msToRemove := hoursToRemove * 3600 * 1000 in
    let newExpires := subscription_expires user - msToRemove in
    if Qltb newExpires now then
      (HoursRemoved (Qmax 0 ((0 - now) / hour_ms)),
       updateUser d userId [SetExpires 0; SetTier 0])
    else
      (HoursRemoved (Qmax 0 ((newExpires - now) / hour_ms)),
       updateUser d userId [SetExpires newExpires])
  end.

(** ** Expired subscription checker: the five-minute [setInterval] *)

Definition sweep_ms : Q := 5 * 60 * 1000.

(** The filter that selects [expiredUsers]. *)
Definition just_expired (now : Q) (u : User) : bool :=
  Nat.ltb 0 (subscription_tier u)
  && Qltb 0 (subscription_expires u)
  && Qltb (subscription_expires u) now
  && Qltb (now - sweep_ms) (subscription_expires u).

(** One turn of the loop over [expiredUsers]. *)
Definition expire_one (acc : list RoleCall * DB) (user : User)
  : list RoleCall * DB :=
  (fst acc ++ [RemoveRoles (discord_id user)],
   updateUser (snd acc) (id user) [SetTier 0]).

(** One run of the timer callback.  The callback awaits the role
    collaborator inside the loop; the run is modelled as one step. *)
Definition tick (now : Q) (d : DB) : list RoleCall * DB :=
  let expiredUsers := filter (just_expired now) (users d) in
  fold_left expire_one expiredUsers ([], d).


(** ** Plan configuration route: [app.post('/api/admin/plans')] *)

Record PlanInput := mkPlanInput {
  in_name : option string;    (* [newPlan.name] *)
  in_price : option Q;        (* [parseFloat(newPlan.price)], [None] = NaN *)
  in_slots : option Z;        (* [parseInt(newPlan.slots)], [None] = NaN *)
  in_enabled : option bool    (* [newPlan.enabled], [None] = undefined *)
}.

(** [plans[tier] || {}] *)
Definition no_input : PlanInput := mkPlanInput None None None None.

Definition merge_plan (t : nat) (defaultPlan : Plan) (newPlan : PlanInput) : Plan :=
  mkPlan
    (if truthy (in_name newPlan)
     then match in_name newPlan with Some n => n | None => name defaultPlan end
     else name defaultPlan)
    t
    (num_or (in_price newPlan) (price defaultPlan))
    (match in_slots newPlan with
     | Some z => if Z.eqb z 0 then slots defaultPlan else z
     | None => slots defaultPlan
     end)
    (adminOnly defaultPlan)
    (match in_enabled newPlan with
     | Some b => b
     | None => enabled defaultPlan
     end).

Definition set_plans (d : DB) (tbl : PlanTable) (gmh : option Q) : DB :=
  mkDB (users d) (banned_hwids d) (db_warnings d) (global_paused d)
       (sales_closed d) (Some tbl) gmh.

(** [body] is [req.body.plans], an object (anything else is refused with
    status 400 and changes nothing); [globalMinHours] is [None] when the
    field is undefined and otherwise holds [parseFloat(globalMinHours)]. *)
Definition admin_set_plans (d : DB) (body : nat -> option PlanInput)
    (globalMinHours : option (option Q)) : DB :=
  let updatedPlans :=
    map (fun '(t, defaultPlan) =>
           (t, merge_plan t defaultPlan
                 (match body t with Some np => np | None => no_input end)))
        DEFAULT_PLANS in
  set_plans d updatedPlans
    (match globalMinHours with
     | Some g => Some (num_or g 2)
     | None => global_min_hours d
     end).

(** ** Balance top-up: [app.post('/api/admin/add-balance/:userId')] *)

(** [amount] is [parseFloat(req.body.amount)]. *)
Definition admin_add_balance (d : DB) (userId : string) (amount : Q)
  : option Q * DB :=
  match findUser_id d userId with
  | None => (None, d)
  | Some user =>
    let newBalance := balance user + amount in
    (Some newBalance, updateUser d userId [SetBalance newBalance])
  end.

(** ** Sequences of operations

    The server is single-threaded: requests and checker ticks run one after
    the other on the shared snapshot, each at its own clock reading. *)

Inductive Op :=
| OpAddBalance (userId : string) (amount : Q)
| OpSubscribe (rq : SubscribeRequest)
| OpPause (userId : string)          (* admin toggle: pause or unpause *)
| OpUnpause (session : option string)
| OpLock (userId : string)
| OpPauseAll
| OpLockAll
| OpWarn (admin userId reason : string)
| OpTick.

Definition exec (now : Q) (op : Op) (d : DB) : DB :=
  match op with
  | OpAddBalance uid amount => snd (admin_add_balance d uid amount)
  | OpSubscribe rq => db_after (subscribe now d rq)
  | OpPause uid => snd (admin_pause now d uid)
  | OpUnpause s => snd (unpause now d s)
  | OpLock uid => snd (lock_pause d uid)
  | OpPauseAll => snd (pause_all d)
  | OpLockAll => snd (lock_all_paused now d)
  | OpWarn admin uid reason => snd (warn now d admin uid reason)
  | OpTick => snd (tick now d)
  end.

Fixpoint run (trace : list (Q * Op)) (d : DB) : DB :=
  match trace with
  | [] => d
  | (now, op) :: rest => run rest (exec now op d)
  end.
(** * Notions used to state the properties *)

(** ** What a successful [subscribe] went through *)

Record Eligible (d : DB) (rq : SubscribeRequest)
       (user : User) (plan : Plan) (h : Q) : Prop := mkEligible {
  adm_session : exists ruid, req_user rq = Some ruid
                             /\ findUser_id d ruid = Some user;
  adm_not_banned : banned_device d (hwid user) = false;
  adm_warnings : (warnings user < 2)%nat;
  adm_sales : sales_closed d = false;
  adm_global : global_paused d = false;
  adm_hours : req_hours rq = Some h;
  adm_range : getGlobalMinHours d <= parsedHours_of h /\ parsedHours_of h <= 168;
  adm_plan : PLANS d (req_tier rq) = Some plan;
  adm_enabled : enabled plan = true;
  adm_admin : adminOnly plan = true -> req_is_admin rq = true
}.

(** After admission the handler is a three-step decision on slots, funds
    and the conversion. *)
Definition after_admission (now : Q) (d : DB) (rq : SubscribeRequest)
    (user : User) (plan : Plan) (h : Q) : Outcome SubscribeResponse :=
  let activeUsersOnTier := activeUsersOnTier_of now d (req_tier rq) (id user) in
  if Z.leb (maxSlots_of plan) (Z.of_nat activeUsersOnTier)
  then reply d (SlotsFull activeUsersOnTier (maxSlots_of plan)) else
  let cost := parsedHours_of h * price plan in
  if Qltb (balance user) cost
  then reply d (InsufficientBalance cost (balance user)) else
  match convertedHours_of now d user plan with
  | None => reply d ServerError
  | Some convertedHours =>
    let totalHours := convertedHours + parsedHours_of h in
    let newExpires := now + totalHours * 3600 * 1000 in
    let newBalance := balance user - cost in
    mkOutcome
      (Subscribed newBalance newExpires (parsedHours_of h) convertedHours
                  totalHours (slots plan))
      (updateUser d (id user)
         [SetBalance newBalance; SetTier (req_tier rq); SetExpires newExpires])
      [AssignRole (discord_id user) (req_tier rq)]
  end.

(** Every configured plan has a capacity and a price other than zero. *)
Definition plans_sound (tbl : PlanTable) : Prop :=
  forall t p, lookup_plan t tbl = Some p -> slots p <> 0%Z /\ ~ price p == 0.

(** What the checker does to a selected user. *)
Definition demote (u : User) : User := apply_updates u [SetTier 0].


(** The pause invariant of the data model: frozen-remaining-duration is
    present exactly when the user is paused. *)
Definition pause_inv (u : User) : Prop :=
  paused u = true <-> paused_time_remaining u <> None.

Definition db_pause_inv (d : DB) : Prop := Forall pause_inv (users d).

(** An operation other than lock-all issued while the global pause is on. *)
Definition spares_pause_inv (op : Op) (d : DB) : Prop :=
  op = OpLockAll -> global_paused d = false.

Fixpoint trace_spares_pause_inv (trace : list (Q * Op)) (d : DB) : Prop :=
  match trace with
  | [] => True
  | (now, op) :: rest =>
      spares_pause_inv op d /\ trace_spares_pause_inv rest (exec now op d)
  end.

(** The [updates] object written by one turn of lock-all, for the value
    [g] of the global pause flag. *)
Definition lock_updates (g : bool) (user : User) : list Update :=
  if g && negb (paused user)
  then [SetPaused true; SetPauseLocked true]
  else [SetPauseLocked true].

(** * Scenarios used to exercise the properties *)

(** A Bronze subscriber with ten hours left buys two hours of Gold. *)
Definition c1_now : Q := 1700000000000.

Definition c1_alice : User :=
  mkUser "u-alice" "d-alice" "ULTRA-AAAA-AAAA-AAAA-AAAA" (Some "HW-A"%string) None
         10 1%nat (c1_now + 10 * hour_ms) 0%nat false false None None false []
         c1_now.

Definition c1_db : DB := mkDB [c1_alice] [] [] false false None None.

Definition c1_rq : SubscribeRequest :=
  mkSubscribeRequest (Some "u-alice"%string) false 3%nat (Some 2).


(** Bronze holds two slots; two subscribers fill them and a third asks. *)
Definition c2_now : Q := 1700000000000.

Definition c2_user (uid : string) (t : nat) (expires bal : Q) : User :=
  mkUser uid uid uid None None bal t expires 0%nat false false None None
         false [] 0.

Definition c2_db : DB :=
  mkDB [c2_user "u-1" 1 (c2_now + 5 * hour_ms) 0;
        c2_user "u-2" 1 (c2_now + 7 * hour_ms) 0;
        c2_user "u-3" 0 0 20]
       [] [] false false None None.



(** A subscriber whose Bronze time ran out one hour ago is paused and
    unpauses at once. *)
Definition c3_now : Q := 1700000000000.

Definition c3_lapsed : User :=
  mkUser "u-lapsed" "d-lapsed" "ULTRA-LLLL-LLLL-LLLL-LLLL" None None
         0 1%nat (c3_now - hour_ms) 0%nat false false None None false [] 0.

(** A subscriber with five Bronze hours left. *)
Definition c3_running : User :=
  mkUser "u-running" "d-running" "ULTRA-RRRR-RRRR-RRRR-RRRR" None None
         0 1%nat (c3_now + 5 * hour_ms) 0%nat false false None None false [] 0.

Definition c3_db : DB :=
  mkDB [c3_lapsed; c3_running] [] [] false false None None.

(** Three Bronze subscribers seen by the checker: one lapsed two minutes
    ago, one ten minutes ago, one still running. *)
Definition c8_now : Q := 1700000000000.

Definition c8_user (uid : string) (expires : Q) : User :=
  mkUser uid uid uid None None 0 1%nat expires 0%nat false false None None
         false [] 0.

Definition c8_db : DB :=
  mkDB [c8_user "u-2min" (c8_now - 2 * 60 * 1000);
        c8_user "u-10min" (c8_now - 10 * 60 * 1000);
        c8_user "u-live" (c8_now + hour_ms)]
       [] [] false false None None.

(** A subscriber with five hours left is paused at [c4_t0]; the script
    validates the licence six hours later. *)
Definition c4_t0 : Q := 1700000000000.
Definition c4_now : Q := c4_t0 + 6 * hour_ms.

Definition c4_user : User :=
  mkUser "u-p" "d-p" "ULTRA-PPPP-PPPP-PPPP-PPPP" None None
         0 1%nat (c4_t0 + 5 * hour_ms) 0%nat false false None None false [] 0.

Definition c4_db : DB := mkDB [c4_user] [] [] false false None None.

(** Follows the words of the specification: the effective-read rule
    [isActive(user, now) = paused ? frozen_remaining > 0 : expires > now]. *)
Definition isActive_spec (u : User) (now : Q) : bool :=
  if paused u
  then match paused_time_remaining u with
       | Some r => Qltb 0 r
       | None => false
       end
  else Qltb now (subscription_expires u).

Definition c4_key : string := "ULTRA-PPPP-PPPP-PPPP-PPPP".
Definition c4_hwid : string := "HW-1".

(** A subscriber bound to a device receives two warnings. *)
Definition c5_user : User :=
  mkUser "u-w" "d-w" "ULTRA-WWWW-WWWW-WWWW-WWWW" (Some "HW-W"%string) None
         0 1%nat (1700000000000 + 5 * hour_ms) 0%nat false false None None
         false [] 0.

Definition c5_db : DB := mkDB [c5_user] [] [] false false None None.

(** A new user tops up, buys two Bronze hours, and the admin turns the
    global pause on and locks everybody. *)
Definition c6_now : Q := 1700000000000.

Definition c6_fresh_db : DB :=
  mkDB [createdUser "u-g" "d-g" "ULTRA-GGGG-GGGG-GGGG-GGGG" c6_now]
       [] [] false false None None.

Definition c6_rq : SubscribeRequest :=
  mkSubscribeRequest (Some "u-g"%string) false 1%nat (Some 2).

Definition c6_trace : list (Q * Op) :=
  [ (c6_now, OpAddBalance "u-g" 10);
    (c6_now, OpSubscribe c6_rq);
    (c6_now + 1000, OpPauseAll);
    (c6_now + 2000, OpLockAll) ].

(** The state in which lock-all is called: the global pause is on and the
    user has two hours running. *)
Definition c6_db : DB :=
  run [ (c6_now, OpAddBalance "u-g" 10);
        (c6_now, OpSubscribe c6_rq);
        (c6_now + 1000, OpPauseAll) ] c6_fresh_db.

(** * Further routes of the server *)

(** ** More of [findUser] and [createUser] *)

(** [findUser({ discord_id })] *)
Definition findUser_discord_id (d : DB) (did : string) : option User :=
  if String.eqb did EmptyString then None
  else find (fun u => String.eqb (discord_id u) did) (users d).

(** [findUser({ hwid })] *)
Definition findUser_hwid (d : DB) (h : string) : option User :=
  if String.eqb h EmptyString then None
  else find (fun u => str_opt_eqb (hwid u) (Some h)) (users d).

(** [createUser(userData)] *)
Definition createUser (d : DB) (userData : User) : DB :=
  set_users d (users d ++ [userData]).

(** ** Licence keys: [generateLicenseKey] *)

Definition chars : string := "ABCDEFGHIJKLMNOPQRSTUVWXYZ0123456789".

(** [s.charAt(i)]: the empty string when [i] is out of range. *)
Definition charAt (s : string) (i : nat) : string :=
  match String.get i s with
  | Some c => String c EmptyString
  | None => EmptyString
  end.

(** The inner loop and the dash of one turn of the outer loop.  [draw k] is
    the value of [Math.floor(Math.random() * chars.length)] at the k-th call. *)
Definition key_group (draw : nat -> nat) (key : string) (i : nat) : string :=
  let key' :=
    fold_left (fun k j => String.append k (charAt chars (draw (4 * i + j)%nat)))
              [0; 1; 2; 3]%nat key in
  if Nat.ltb i 3 then String.append key' "-" else key'.

Definition generateLicenseKey (draw : nat -> nat) : string :=
  fold_left (key_group draw) [0; 1; 2; 3]%nat "ULTRA-"%string.

(** ** Identity linkage: the verify callback of the Discord strategy

    [uuid] is the value of [uuidv4()] and [draw] feeds the key generator;
    both are only used when the profile is new.  Of the fields written on a
    later login the model keeps [last_active]. *)
Definition login (now : Q) (d : DB) (profile_id uuid : string)
    (draw : nat -> nat) : DB :=
  match findUser_discord_id d profile_id with
  | None =>
      createUser d (createdUser uuid profile_id (generateLicenseKey draw) now)
  | Some user => updateUser d (id user) [SetLastActive now]
  end.

(** ** Device binding resets *)

Inductive ResetResponse :=
| ResetNotAuthenticated
| ResetUserNotFound
| ResetDone
| ResetServerError.

(** The history after a reset: the old binding, if any, is pushed. *)
Definition reset_history (now : Q) (user : User) (action : string)
  : list HwidEvent :=
  match hwid user with
  | Some h => if truthy (hwid user)
              then hwid_history user ++ [mkHwidEvent h now action]
              else hwid_history user
  | None => hwid_history user
  end.

(** [app.post('/api/reset-hwid')] *)
Definition reset_hwid (now : Q) (d : DB) (session : option string)
  : ResetResponse * DB :=
  match session with
  | None => (ResetNotAuthenticated, d)
  | Some uid =>
    match findUser_id d uid with
    | None => (ResetServerError, d)     (* [user.hwid_history] on undefined *)
    | Some user =>
      (ResetDone,
       updateUser d uid
         [SetHwid None; SetHwidHistory (reset_history now user "reset")])
    end
  end.

(** [app.post('/api/admin/reset-hwid/:userId')]; the name of the admin kept
    in the history entry is not modelled. *)
Definition admin_reset_hwid (now : Q) (d : DB) (userId : string)
  : ResetResponse * DB :=
  match findUser_id d userId with
  | None => (ResetUserNotFound, d)
  | Some user =>
    (ResetDone,
     updateUser d userId
       [SetHwid None; SetHwidHistory (reset_history now user "admin_reset")])
  end.

(** ** Bans *)

Inductive BanResponse :=
| BanUserNotFound
| NoHwidToBan
| BannedHwid (h : string).

(** [app.post('/api/admin/ban/:userId')] *)
Definition admin_ban (d : DB) (userId : string) : BanResponse * DB :=
  match findUser_id d userId with
  | None => (BanUserNotFound, d)
  | Some user =>
    match hwid user with
    | None => (NoHwidToBan, d)
    | Some h =>
      if negb (truthy (hwid user)) then (NoHwidToBan, d) else
      let d1 := if negb (isHWIDBanned d h)
                then set_banned_hwids d (banned_hwids d ++ [h]) else d in
      (BannedHwid h, updateUser d1 userId [SetWarnings 99])
    end
  end.

(** [app.post('/api/admin/unban/:hwid')] *)
Definition admin_unban (d : DB) (h : string) : DB :=
  set_banned_hwids d (filter (fun x => negb (String.eqb x h)) (banned_hwids d)).

Inductive UnbanUserResponse :=
| UnbanUserNotFound
| UnbannedUser (unbanned_hwid : bool) (h : option string).

(** [app.post('/api/admin/unban-user/:userId')] *)
Definition admin_unban_user (d : DB) (userId : string)
  : UnbanUserResponse * DB :=
  match findUser_id d userId with
  | None => (UnbanUserNotFound, d)
  | Some user =>
    let unbannedHwid := banned_device d (hwid user) in
    let d1 :=
      match hwid user with
      | Some h => if unbannedHwid then admin_unban d h else d
      | None => d
      end in
    (UnbannedUser unbannedHwid (hwid user), updateUser d1 userId [SetWarnings 0])
  end.

(** [app.post('/api/admin/clear-warnings/:userId')] *)
Definition clear_warnings (d : DB) (userId : string) : bool * DB :=
  match findUser_id d userId with
  | None => (false, d)
  | Some user => (true, updateUser d userId [SetWarnings 0])
  end.

(** ** Adding time and removing the subscription *)

(** [app.post('/api/admin/add-time/:userId')].  [hours] is
    [parseFloat(req.body.hours)] for a numeric body field and [t] is
    [req.body.tier], [None] when it is missing. *)
Definition add_time (now : Q) (d : DB) (userId : string) (hours : Q)
    (t : option nat) : option Q * DB :=
  match findUser_id d userId with
  | None => (None, d)
  | Some user =>
    let currentExpires := Qmax (subscription_expires user) now in
    let newExpires := currentExpires + hours * 3600 * 1000 in
    let newTier :=
      match t with
      | Some (S n) => S n
      | _ => match subscription_tier user with
             | S n => S n
             | O => 1%nat
             end
      end in
    (Some newExpires,
     updateUser d userId [SetExpires newExpires; SetTier newTier])
  end.

(** [app.post('/api/admin/remove-subscription/:userId')] *)
Definition remove_subscription (d : DB) (userId : string)
  : Outcome bool :=
  match findUser_id d userId with
  | None => reply d false
  | Some user =>
    mkOutcome true
      (updateUser d userId [SetTier 0; SetExpires 0])
      [RemoveRoles (discord_id user)]
  end.

(** [app.post('/api/admin/toggle-sales')] *)
Definition toggle_sales (d : DB) : bool * DB :=
  let closed := negb (sales_closed d) in
  (closed,
   mkDB (users d) (banned_hwids d) (db_warnings d) (global_paused d) closed
        (plans d) (global_min_hours d)).

(** ** What the dashboard shows: [app.get('/api/user')] *)




(** ** Capacity display: [app.get('/api/slots-status')] *)

Record SlotStatus := mkSlotStatus {
  st_name : string;
  st_activeUsers : nat;
  st_maxSlots : Z;
  st_nextSlotMs : option Q;
  st_adminOnly : bool;
  st_enabled : bool
}.

(** [Array.prototype.sort] with the comparator
    [(a, b) => a.subscription_expires - b.subscription_expires]: a stable
    sort by ascending expiry. *)
Fixpoint insert_by_expires (x : User) (l : list User) : list User :=
  match l with
  | [] => [x]
  | y :: rest =>
      if Qle_bool (subscription_expires x) (subscription_expires y)
      then x :: y :: rest
      else y :: insert_by_expires x rest
  end.

Definition sort_by_expires (l : list User) : list User :=
  fold_right insert_by_expires [] l.

Definition tierUsers_of (now : Q) (d : DB) (t : nat) : list User :=
  let activeUsers :=
    filter (fun u => Nat.ltb 0 (subscription_tier u)
                     && Qltb now (subscription_expires u)) (users d) in
  sort_by_expires (filter (fun u => Nat.eqb (subscription_tier u) t) activeUsers).

Definition slot_status_of (now : Q) (d : DB) (t : nat) (plan : Plan)
  : SlotStatus :=
  let tierUsers := tierUsers_of now d t in
  mkSlotStatus (name plan) (List.length tierUsers) (maxSlots_of plan)
    (match tierUsers with
     | first :: _ => Some (subscription_expires first - now)
     | [] => None
     end)
    (adminOnly plan) (enabled plan).

(** The [plans] object of the response, one entry per configured tier of
    1 to 5. *)
Definition slots_status (now : Q) (d : DB) : list (nat * SlotStatus) :=
  flat_map (fun t => match lookup_plan t (getPlans d) with
                     | Some plan => [(t, slot_status_of now d t plan)]
                     | None => []
                     end) [1; 2; 3; 4; 5]%nat.

(** ** Joiner validation: [app.get('/api/joiner/validate')] *)

Inductive JoinerResponse :=
| JNoKeyProvided
| JBanned
| JInvalidKey
| JExpired
| JPaused
| JHWIDMismatch
| JValid (t : nat) (plan : option Plan) (hoursLeft expires : Q).

Definition joiner_updates (now : Q) (user : User) (hwid_q roblox : option string)
  : list Update :=
  [SetLastActive now]
  ++ (if negb (truthy (hwid user)) && truthy hwid_q
      then [SetHwid hwid_q;
            SetHwidHistory
              (hwid_history user
               ++ [mkHwidEvent
                     (match hwid_q with Some s => s | None => EmptyString end)
                     now "joiner_set"])]
      else [])
  ++ (if truthy roblox then [SetRoblox roblox] else []).

Definition joiner_validate (now : Q) (d : DB) (key hwid_q roblox : option string)
  : JoinerResponse * DB :=
  match key with
  | None => (JNoKeyProvided, d)
  | Some k =>
    if negb (truthy key) then (JNoKeyProvided, d) else
    if banned_device d hwid_q then (JBanned, d) else
    match findUser_license_key d k with
    | None => (JInvalidKey, d)
    | Some user =>
      if Nat.leb 2 (warnings user) then (JBanned, d) else
      let isActive := Qltb now (subscription_expires user) in
      if negb isActive then (JExpired, d) else
      if global_paused d || paused user then (JPaused, d) else
      if truthy (hwid user) && negb (str_opt_eqb (hwid user) hwid_q)
      then (JHWIDMismatch, d) else
      (JValid (subscription_tier user) (PLANS d (subscription_tier user))
              ((subscription_expires user - now) / hour_ms)
              (subscription_expires user),
       updateUser d (id user) (joiner_updates now user hwid_q roblox))
    end
  end.

(** ** Script download: [app.get('/api/scanner/script')] *)

Inductive ScriptResponse :=
| ScriptNoKey
| ScriptInvalidKey
| ScriptExpired
| ScriptServed (script : string)
| ScriptReadError.

Definition script_updates (now : Q) (user : User) (hwid_q roblox : option string)
  : list Update :=
  [SetLastActive now]
  ++ (if truthy hwid_q && negb (truthy (hwid user)) then [SetHwid hwid_q] else [])
  ++ (if truthy roblox then [SetRoblox roblox] else []).

(** [joiner_lua] is the content of the script file, [None] when reading it
    throws. *)
Definition scanner_script (now : Q) (d : DB) (key hwid_q roblox : option string)
    (joiner_lua : option string) : ScriptResponse * DB :=
  match key with
  | None => (ScriptNoKey, d)
  | Some k =>
    if negb (truthy key) then (ScriptNoKey, d) else
    match findUser_license_key d k with
    | None => (ScriptInvalidKey, d)
    | Some user =>
      if negb (Qltb now (subscription_expires user)) then (ScriptExpired, d) else
      let updates := script_updates now user hwid_q roblox in
      let d' := if Nat.ltb 1 (List.length updates)
                then updateUser d (id user) updates else d in
      match joiner_lua with
      | Some script => (ScriptServed script, d')
      | None => (ScriptReadError, d')
      end
    end
  end.

(** ** Pause polling: [app.get('/api/check-pause')] *)

Inductive PauseCheck :=
| PausedGlobally
| PauseCheckUserNotFound
| PausedByAdmin
| NotPausedNow.

Definition check_pause (d : DB) (key hwid_q : option string) : PauseCheck :=
  if global_paused d then PausedGlobally else
  let by_key :=
    match key with
    | Some k => if truthy key then findUser_license_key d k else None
    | None => None
    end in
  let user :=
    match by_key with
    | Some u => Some u
    | None =>
        match hwid_q with
        | Some h => if truthy hwid_q then findUser_hwid d h else None
        | None => None
        end
    end in
  match user with
  | None => PauseCheckUserNotFound
  | Some u => if paused u then PausedByAdmin else NotPausedNow
  end.

(** ** The rest of the snapshot

    [db] also holds the scan logs, the servers found by the scanners and the
    manual payments; they are kept beside the part modelled by [DB]. *)

Record Log := mkLog {
  log_id : Q;
  brainrot_name : string;
  brainrot_value : string;
  image_url : string;
  log_timestamp : Q
}.

Record Server := mkServer {
  jobId : option string;
  bestName : string;
  bestValue : Q;
  srv_timestamp : Q
}.

Record Payment := mkPayment {
  pay_id : string;
  pay_userId : string;
  pay_discord_id : string;
  pay_amount : Q;
  pay_txId : string;
  pay_crypto : string;
  submitted_at : Q
}.

Record Store := mkStore {
  core : DB;
  logs : list Log;
  servers : list Server;
  pending_payments : list Payment;
  used_transactions : list string
}.

Definition set_core (s : Store) (d : DB) : Store :=
  mkStore d (logs s) (servers s) (pending_payments s) (used_transactions s).


Definition set_servers (s : Store) (l : list Server) : Store :=
  mkStore (core s) (logs s) l (pending_payments s) (used_transactions s).

Definition set_pending_payments (s : Store) (l : list Payment) : Store :=
  mkStore (core s) (logs s) (servers s) l (used_transactions s).

Definition set_used_transactions (s : Store) (l : list string) : Store :=
  mkStore (core s) (logs s) (servers s) (pending_payments s) l.


(** [a.slice(0, n)]: the first [n] elements. *)
Definition slice_first {A : Type} (n : nat) (l : list A) : list A := firstn n l.

(** ** Scan logs *)



(** ** Servers reported by the scanners: [app.post('/api/joiner/servers')] *)

Definition thirty_min : Q := 30 * 60 * 1000.

(** The answer is [serverCount], [None] for a wrong key. *)
Definition post_server (now : Q) (env_key : option string) (s : Store)
    (api_key : option string) (server : Server) : option nat * Store :=
  if negb (str_opt_eqb api_key env_key) then (None, s) else
  let others :=
    filter (fun x => negb (str_opt_eqb (jobId x) (jobId server))) (servers s) in
  let added :=
    mkServer (jobId server) (bestName server) (bestValue server) now :: others in
  let thirtyMinAgo := now - thirty_min in
  let kept :=
    slice_first 50 (filter (fun x => Qltb thirtyMinAgo (srv_timestamp x)) added) in
  (Some (List.length kept), set_servers s kept).

(** ** Manual payments *)

Inductive SubmitResponse :=
| SubmitNotAuthenticated
| InvalidAmount
| InvalidTransactionId
| TransactionAlreadySubmitted
| PaymentSubmitted.

(** [app.post('/api/payment/submit')].  [session] is [req.user], [amount] a
    numeric body field ([None] when missing), [txId] a string body field and
    [now_str] the value of [Date.now().toString()]. *)
Definition payment_submit (now : Q) (now_str : string) (s : Store)
    (session : option User) (amount : option Q) (txId : option string)
    (crypto : option string) : SubmitResponse * Store :=
  match session with
  | None => (SubmitNotAuthenticated, s)
  | Some ruser =>
    match amount with
    | None => (InvalidAmount, s)
    | Some a =>
      if Qeq_bool a 0 || Qltb a 1 then (InvalidAmount, s) else
      match txId with
      | None => (InvalidTransactionId, s)
      | Some tx =>
        if negb (truthy txId) || Nat.ltb (String.length tx) 10
        then (InvalidTransactionId, s) else
        let existingTx :=
          existsb (fun p => String.eqb (pay_txId p) tx) (pending_payments s)
          || existsb (String.eqb tx) (used_transactions s) in
        if existingTx then (TransactionAlreadySubmitted, s) else
        let payment :=
          mkPayment now_str (id ruser) (discord_id ruser) a tx
                    (if truthy crypto
                     then match crypto with Some c => c | None => "btc" end
                     else "btc")
                    now in
        (PaymentSubmitted,
         set_pending_payments s (pending_payments s ++ [payment]))
      end
    end
  end.

Inductive ApproveResponse :=
| PaymentNotFound
| PaymentUserNotFound
| PaymentApproved (new_balance : Q).

(** The first pending payment with the id, and the list without it
    ([findIndex] followed by [splice(index, 1)]). *)
Fixpoint take_payment (pid : string) (l : list Payment)
  : option (Payment * list Payment) :=
  match l with
  | [] => None
  | p :: rest =>
      if String.eqb (pay_id p) pid then Some (p, rest)
      else match take_payment pid rest with
           | Some (q, rest') => Some (q, p :: rest')
           | None => None
           end
  end.

(** [app.post('/api/admin/payments/:paymentId/approve')] *)
Definition payment_approve (s : Store) (paymentId : string)
  : ApproveResponse * Store :=
  match take_payment paymentId (pending_payments s) with
  | None => (PaymentNotFound, s)
  | Some (payment, rest) =>
    let user :=
      match findUser_id (core s) (pay_userId payment) with
      | Some u => Some u
      | None => findUser_discord_id (core s) (pay_discord_id payment)
      end in
    match user with
    | None => (PaymentUserNotFound, s)
    | Some u =>
      let newBalance := balance u + pay_amount payment in
      (PaymentApproved newBalance,
       mkStore (updateUser (core s) (id u) [SetBalance newBalance])
               (logs s) (servers s) rest
               (used_transactions s ++ [pay_txId payment]))
    end
  end.

(** [app.post('/api/admin/payments/:paymentId/deny')] *)
Definition payment_deny (s : Store) (paymentId : string) : bool * Store :=
  match take_payment paymentId (pending_payments s) with
  | None => (false, s)
  | Some (_, rest) => (true, set_pending_payments s rest)
  end.

(** ** Requests that reach the user records *)

Inductive Request :=
| ROp (op : Op)
| RLogin (profile_id uuid : string) (draw : nat -> nat)
| RValidate (key hwid_q roblox : option string)
| RJoinerValidate (key hwid_q roblox : option string)
| RScannerScript (key hwid_q roblox joiner_lua : option string)
| RResetHwid (session : option string)
| RAdminResetHwid (userId : string)
| RAdminBan (userId : string)
| RAdminUnban (h : string)
| RAdminUnbanUser (userId : string)
| RClearWarnings (userId : string)
| RAddTime (userId : string) (hours : Q) (t : option nat)
| RRemoveHours (userId : string) (hours : option Q)
| RRemoveSubscription (userId : string)
| RToggleSales
| RSetPlans (body : nat -> option PlanInput) (globalMinHours : option (option Q)).

Definition handle (now : Q) (rq : Request) (d : DB) : DB :=
  match rq with
  | ROp op => exec now op d
  | RLogin p uuid draw => login now d p uuid draw
  | RValidate k h r => snd (validate now d k h r)
  | RJoinerValidate k h r => snd (joiner_validate now d k h r)
  | RScannerScript k h r f => snd (scanner_script now d k h r f)
  | RResetHwid s => snd (reset_hwid now d s)
  | RAdminResetHwid uid => snd (admin_reset_hwid now d uid)
  | RAdminBan uid => snd (admin_ban d uid)
  | RAdminUnban h => admin_unban d h
  | RAdminUnbanUser uid => snd (admin_unban_user d uid)
  | RClearWarnings uid => snd (clear_warnings d uid)
  | RAddTime uid hours t => snd (add_time now d uid hours t)
  | RRemoveHours uid hours => snd (remove_hours now d uid hours)
  | RRemoveSubscription uid => db_after (remove_subscription d uid)
  | RToggleSales => snd (toggle_sales d)
  | RSetPlans body gmh => admin_set_plans d body gmh
  end.

Fixpoint serve (trace : list (Q * Request)) (d : DB) : DB :=
  match trace with
  | [] => d
  | (now, rq) :: rest => serve rest (handle now rq d)
  end.

(** What identifies a user: the id, the Discord id and the licence key. *)
Definition identity (u : User) : string * string * string :=
  (id u, discord_id u, license_key u).



(** The head of the list has the least expiry. *)
Definition least_first (l : list User) : Prop :=
  match l with
  | [] => True
  | x :: rest =>
      forall y, In y rest -> subscription_expires x <= subscription_expires y
  end.

(** On tier [t] with an expiry after [now]. *)
Definition on_tier_now (now : Q) (t : nat) (u : User) : bool :=
  Nat.eqb (subscription_tier u) t && Qltb now (subscription_expires u).

(** ** Sequences of payment requests *)

Inductive PayOp :=
| PSubmit (now : Q) (now_str : string) (session : option User)
          (amount : option Q) (txId crypto : option string)
| PApprove (paymentId : string)
| PDeny (paymentId : string).

Definition pay_exec (op : PayOp) (s : Store) : Store :=
  match op with
  | PSubmit now now_str session amount txId crypto =>
      snd (payment_submit now now_str s session amount txId crypto)
  | PApprove pid => snd (payment_approve s pid)
  | PDeny pid => snd (payment_deny s pid)
  end.

Fixpoint pay_run (trace : list PayOp) (s : Store) : Store :=
  match trace with
  | [] => s
  | op :: rest => pay_run rest (pay_exec op s)
  end.

(** No transaction id is pending twice, and none is pending once it has
    been used. *)
Definition payments_sound (s : Store) : Prop :=
  NoDup (map pay_txId (pending_payments s))
  /\ forall p, In p (pending_payments s) -> ~ In (pay_txId p) (used_transactions s).

(** ** Scenarios for the further routes *)

(** Alice of the first scenario has submitted a payment of 5. *)
Definition pay_store : Store :=
  mkStore c1_db [] []
          [mkPayment "1700000000000" "u-alice" "d-alice" 5 "tx-0123456789"
                     "btc" c1_now]
          [].

(** ** Self-service balance: [app.post('/api/add-balance')]

    [amount] is [parseFloat(req.body.amount)].  The session user is looked
    up again by id; the lookup cannot fail inside one handler, and a missing
    user would make [user.balance] throw. *)



(** ** The client: [formatSlotTime] of [public/js/app.js]

    [ms] is [None] for [null], [undefined] and [NaN].  A template literal
    prints an integer in decimal (below 1e21, where JavaScript switches to
    exponent notation). *)

From Stdlib Require DecimalString.

Definition show (z : Z) : string :=
  DecimalString.NilZero.string_of_int (Z.to_int z).

Definition formatSlotTime (ms : option Q) : string :=
  match ms with
  | None => "Available"
  | Some ms =>
    if Qle_bool ms 0 then "Available" else
    let totalMinutes := Qfloor (ms / 60000) in
    let days := (totalMinutes / 1440)%Z in
    let hours := (Z.rem totalMinutes 1440 / 60)%Z in
    let minutes := Z.rem totalMinutes 60 in
    if (0 <? days)%Z then
      (show days ++ "d " ++ show hours ++ "h " ++ show minutes ++ "m")%string
    else if (0 <? hours)%Z then
      (show hours ++ "h " ++ show minutes ++ "m")%string
    else (show minutes ++ "m")%string
  end.




(** * Properties *)

(** ** Facts about the primitives *)

Lemma Qltb_lt (a b : Q) : Qltb a b = true <-> a < b.
Proof.
  unfold Qltb. rewrite negb_true_iff. split.
  - intros H. apply Qnot_le_lt. intros Hle.
    apply Qle_bool_iff in Hle. congruence.
  - intros H. destruct (Qle_bool b a) eqn:E; [|reflexivity].
    apply Qle_bool_iff in E. exfalso. exact (Qlt_not_le _ _ H E).
Qed.

Lemma Qltb_ge (a b : Q) : Qltb a b = false <-> b <= a.
Proof.
  unfold Qltb. rewrite negb_false_iff. apply Qle_bool_iff.
Qed.

Lemma id_apply_update (u : User) (up : Update) : id (apply_update u up) = id u.
Proof. destruct u, up; reflexivity. Qed.

Lemma id_apply_updates (ups : list Update) (u : User) :
  id (apply_updates u ups) = id u.
Proof.
  unfold apply_updates. revert u.
  induction ups as [|up ups IH]; intros u; simpl; [reflexivity|].
  rewrite IH. apply id_apply_update.
Qed.

Lemma find_update_first (uid : string) (ups : list Update) (us : list User) (u : User) :
  find (fun x => String.eqb (id x) uid) us = Some u ->
  find (fun x => String.eqb (id x) uid) (update_first uid ups us)
  = Some (apply_updates u ups).
Proof.
  induction us as [|x us IH]; simpl; [discriminate|].
  destruct (String.eqb (id x) uid) eqn:E; simpl.
  - intros [= ->]. now rewrite id_apply_updates, E.
  - rewrite E. exact IH.
Qed.

Lemma findUser_id_updateUser (d : DB) (uid : string) (ups : list Update) (u : User) :
  findUser_id d uid = Some u ->
  findUser_id (updateUser d uid ups) uid = Some (apply_updates u ups).
Proof.
  unfold findUser_id. destruct (String.eqb uid EmptyString) eqn:E; [discriminate|].
  intros H. simpl. now apply find_update_first.
Qed.

Lemma findUser_id_spec (d : DB) (uid : string) (u : User) :
  findUser_id d uid = Some u -> id u = uid /\ In u (users d).
Proof.
  unfold findUser_id. destruct (String.eqb uid EmptyString); [discriminate|].
  intros H. apply find_some in H. destruct H as [Hin Heq].
  apply String.eqb_eq in Heq. now split.
Qed.

Lemma subscribe_eligible now d rq user plan h :
  Eligible d rq user plan h ->
  subscribe now d rq = after_admission now d rq user plan h.
Proof.
  intros [[ruid [Hs Hf]] Hb Hw Hsales Hg Hh [Hlo Hhi] Hp He Ha].
  unfold subscribe, after_admission.
  rewrite Hs, Hf, Hb, Hsales, Hg, Hh, Hp, He.
  replace (Nat.leb 2 (warnings user)) with false
    by (symmetry; apply Nat.leb_gt; exact Hw).
  replace (Qltb (parsedHours_of h) (getGlobalMinHours d)) with false
    by (symmetry; apply Qltb_ge; exact Hlo).
  replace (Qltb 168 (parsedHours_of h)) with false
    by (symmetry; apply Qltb_ge; exact Hhi).
  cbn [negb orb].
  destruct (adminOnly plan) eqn:Ead; cbn [andb];
    [rewrite (Ha eq_refl); cbn [negb]|]; reflexivity.
Qed.

Lemma subscribe_success_inv now d rq nb ex ha ch th sl :
  response (subscribe now d rq) = Subscribed nb ex ha ch th sl ->
  exists user plan h, Eligible d rq user plan h.
Proof.
  unfold subscribe.
  destruct (req_user rq) as [ruid|] eqn:Hs; [|discriminate].
  destruct (findUser_id d ruid) as [user|] eqn:Hf.
  - destruct (banned_device d (hwid user)) eqn:Hb; [discriminate|].
    destruct (Nat.leb 2 (warnings user)) eqn:Hw; [discriminate|].
    destruct (sales_closed d) eqn:Hsales; [discriminate|].
    destruct (global_paused d) eqn:Hg; [discriminate|].
    destruct (req_hours rq) as [h|] eqn:Hh; [|discriminate].
    destruct (Qltb (parsedHours_of h) (getGlobalMinHours d)) eqn:Hlo;
      [discriminate|].
    destruct (Qltb 168 (parsedHours_of h)) eqn:Hhi; [discriminate|].
    simpl.
    destruct (PLANS d (req_tier rq)) as [plan|] eqn:Hp; [|discriminate].
    destruct (enabled plan) eqn:He; [|discriminate]. simpl.
    destruct (adminOnly plan && negb (req_is_admin rq)) eqn:Ha; [discriminate|].
    intros _. exists user, plan, h. constructor; auto.
    + exists ruid. now split.
    + apply Nat.leb_gt. exact Hw.
    + split; apply Qltb_ge; assumption.
    + intros Hao. rewrite Hao in Ha. simpl in Ha.
      now apply negb_false_iff in Ha.
  - simpl.
    destruct (sales_closed d); [discriminate|].
    destruct (global_paused d); [discriminate|].
    destruct (req_hours rq) as [h|]; [|discriminate].
    destruct (_ || _); [discriminate|].
    destruct (PLANS d (req_tier rq)) as [plan|]; [|discriminate].
    destruct (negb (enabled plan)); [discriminate|].
    destruct (_ && _); [discriminate|].
    destruct (existsb _ _); [discriminate|].
    destruct (Z.leb _ _); discriminate.
Qed.

Lemma after_admission_success_inv now d rq user plan h nb ex ha ch th sl :
  response (after_admission now d rq user plan h) = Subscribed nb ex ha ch th sl ->
  (Z.of_nat (activeUsersOnTier_of now d (req_tier rq) (id user)) < maxSlots_of plan)%Z
  /\ parsedHours_of h * price plan <= balance user
  /\ convertedHours_of now d user plan = Some ch
  /\ ha = parsedHours_of h
  /\ th = ch + parsedHours_of h
  /\ ex = now + th * 3600 * 1000
  /\ nb = balance user - parsedHours_of h * price plan
  /\ sl = slots plan
  /\ db_after (after_admission now d rq user plan h)
     = updateUser d (id user) [SetBalance nb; SetTier (req_tier rq); SetExpires ex].
Proof.
  unfold after_admission.
  destruct (Z.leb _ _) eqn:Hslots; [discriminate|].
  destruct (Qltb (balance user) _) eqn:Hfunds; [discriminate|].
  destruct (convertedHours_of now d user plan) as [c|]; [|discriminate].
  simpl. intros [= <- <- <- <- <- <-].
  repeat split; try reflexivity.
  - apply Z.leb_gt. exact Hslots.
  - apply Qltb_ge. exact Hfunds.
Qed.





(** ** C1: fair conversion between tiers *)



(** ** Plans that the server can configure *)

Lemma num_or_nonzero (x : option Q) (dflt : Q) : ~ dflt == 0 -> ~ num_or x dflt == 0.
Proof.
  intros Hd. unfold num_or. destruct x as [v|]; [|exact Hd].
  destruct (Qeq_bool v 0) eqn:E; [exact Hd|].
  now apply Qeq_bool_neq.
Qed.

Lemma merge_plan_sound t dflt np :
  slots dflt <> 0%Z -> ~ price dflt == 0 ->
  slots (merge_plan t dflt np) <> 0%Z /\ ~ price (merge_plan t dflt np) == 0.
Proof.
  intros Hs Hp. unfold merge_plan. simpl. split.
  - destruct (in_slots np) as [z|]; [|exact Hs].
    destruct (Z.eqb z 0) eqn:E; [exact Hs|]. now apply Z.eqb_neq.
  - now apply num_or_nonzero.
Qed.

Lemma DEFAULT_PLANS_sound : plans_sound DEFAULT_PLANS.
Proof.
  intros t p.
  do 6 (destruct t as [|t];
        [simpl; try discriminate;
         try (intros [= <-]; simpl; split; [lia | intros H; discriminate H])|]).
  discriminate.
Qed.

(** Neither the defaults nor the admin route can store a capacity of zero or
    a price of zero. *)
Lemma admin_set_plans_sound d body gmh :
  plans_sound (getPlans (admin_set_plans d body gmh)).
Proof.
  intros t p. unfold admin_set_plans, getPlans.
  do 6 (destruct t as [|t];
        [simpl; try discriminate;
         try (intros [= <-]; apply merge_plan_sound;
              [simpl; lia | simpl; intros H; discriminate H])|]).
  discriminate.
Qed.



(** ** C2: slot admission *)



(** ** C9: what a subscription costs *)






(** ** C10: removing hours *)

(** C10.  Removing h > 0 hours from an existing user: when the stored expiry
    minus h hours falls before now, the expiry and the tier are both set to
    0; otherwise the expiry decreases by h * 3,600,000 ms and the tier is
    kept.  Either way a positive stored expiry is never in the past. *)
Theorem C10_remove_hours now d userId h user :
  findUser_id d userId = Some user ->
  0 < h ->
  exists u',
    findUser_id (snd (remove_hours now d userId (Some h))) userId = Some u'
    /\ (subscription_expires user - h * hour_ms < now ->
        subscription_expires u' = 0 /\ subscription_tier u' = 0%nat)
    /\ (now <= subscription_expires user - h * hour_ms ->
        subscription_expires u' == subscription_expires user - h * 3600000
        /\ subscription_tier u' = subscription_tier user)
    /\ (0 < subscription_expires u' -> now <= subscription_expires u').
Proof.
  intros Hf Hh. unfold remove_hours. rewrite Hf.
  assert (Hn : num_or (Some h) 0 = h).
  { unfold num_or. destruct (Qeq_bool h 0) eqn:E; [|reflexivity].
    apply Qeq_bool_iff in E. lra. }
  rewrite Hn.
  assert (Hpos : Qle_bool h 0 = false).
  { destruct (Qle_bool h 0) eqn:E; [|reflexivity].
    apply Qle_bool_iff in E. lra. }
  rewrite Hpos.
  destruct (Qltb (subscription_expires user - h * 3600 * 1000) now) eqn:Hcmp.
  - apply Qltb_lt in Hcmp. simpl.
    exists (apply_updates user [SetExpires 0; SetTier 0]).
    split; [now apply findUser_id_updateUser|].
    assert (E : subscription_expires (apply_updates user [SetExpires 0; SetTier 0]) = 0
                /\ subscription_tier (apply_updates user [SetExpires 0; SetTier 0]) = 0%nat)
      by (destruct user; split; reflexivity).
    destruct E as [E1 E2]. rewrite E1, E2.
    split; [intros _; split; reflexivity|].
    split; [unfold hour_ms; intros; lra|].
    intros H0. lra.
  - apply Qltb_ge in Hcmp. simpl.
    set (e' := subscription_expires user - h * 3600 * 1000) in *.
    exists (apply_updates user [SetExpires e']).
    split; [now apply findUser_id_updateUser|].
    assert (E : subscription_expires (apply_updates user [SetExpires e']) = e'
                /\ subscription_tier (apply_updates user [SetExpires e'])
                   = subscription_tier user)
      by (destruct user; split; reflexivity).
    destruct E as [E1 E2]. rewrite E1, E2. subst e'.
    split; [unfold hour_ms; intros; lra|].
    split; [intros _; split; [ring | reflexivity]|].
    intros _. exact Hcmp.
Qed.

Lemma C10_remove_hours_witness :
  exists u',
    findUser_id (snd (remove_hours c3_now c3_db "u-running" (Some 2))) "u-running"
    = Some u'
    /\ subscription_expires u' == c3_now + 3 * hour_ms
    /\ subscription_tier u' = 1%nat.
Proof.
  assert (Hf : findUser_id c3_db "u-running" = Some c3_running) by reflexivity.
  assert (Hh : 0 < 2) by reflexivity.
  destruct (C10_remove_hours c3_now c3_db "u-running" 2 c3_running Hf Hh)
    as (u' & Hfind & _ & Hkeep & _).
  exists u'. split; [exact Hfind|].
  assert (Hle : c3_now <= subscription_expires c3_running - 2 * hour_ms)
    by (vm_compute; discriminate).
  destruct (Hkeep Hle) as [He Ht].
  split; [rewrite He; vm_compute; reflexivity | exact Ht].
Defined.

(** ** C3: pause and self-service unpause *)

Lemma num_or_zero (x : Q) : num_or (Some x) 0 == x.
Proof.
  unfold num_or. destruct (Qeq_bool x 0) eqn:E; [|reflexivity].
  apply Qeq_bool_iff in E. now rewrite E.
Qed.

Lemma admin_pause_pauses now d userId user :
  findUser_id d userId = Some user -> paused user = false ->
  admin_pause now d userId
  = (PauseToggled true,
     updateUser d userId
       [SetPaused true; SetPauseLocked false;
        SetPausedTimeRemaining (Some (Qmax 0 (subscription_expires user - now)));
        SetPausedAt (Some now)]).
Proof.
  intros Hf Hp. unfold admin_pause. now rewrite Hf, Hp.
Qed.

Lemma unpause_permitted now d uid user :
  findUser_id d uid = Some user ->
  paused user = true -> pause_locked user = false ->
  unpause now d (Some uid)
  = (Unpaused,
     updateUser d uid
       [SetPaused false; SetUnpauseRequested false;
        SetExpires (now + timeRemaining_of user);
        SetPausedTimeRemaining None; SetPausedAt None]).
Proof.
  intros Hf Hp Hl. unfold unpause. now rewrite Hf, Hp, Hl.
Qed.

Lemma unpause_refused now d uid user :
  findUser_id d uid = Some user ->
  paused user = false \/ pause_locked user = true ->
  snd (unpause now d (Some uid)) = d
  /\ fst (unpause now d (Some uid)) <> Unpaused.
Proof.
  intros Hf H. unfold unpause. rewrite Hf.
  destruct (paused user); simpl.
  - destruct H as [H|H]; [discriminate|]. rewrite H. simpl.
    split; [reflexivity | discriminate].
  - split; [reflexivity | discriminate].
Qed.

(** C3 (amended).  Pausing a non-paused user stores
    frozen-remaining = max(0, expires - now), sets paused and clears the
    lock, and leaves the stored expiry unchanged.  Self-service Unpause is
    permitted exactly when the user is paused and not locked; it then sets
    expires = now + frozen-remaining and clears the paused flag and
    frozen-remaining, and a refused Unpause changes nothing.  Pause followed
    by a permitted Unpause at the same instant restores the pre-pause expiry
    when that expiry was not before now; when the subscription had already
    lapsed the restored expiry is now. *)
Theorem C3_pause_unpause now d userId user :
  findUser_id d userId = Some user ->
  paused user = false ->
  let d1 := snd (admin_pause now d userId) in
  exists u1,
    findUser_id d1 userId = Some u1
    /\ paused u1 = true /\ pause_locked u1 = false
    /\ paused_time_remaining u1 = Some (Qmax 0 (subscription_expires user - now))
    /\ subscription_expires u1 = subscription_expires user
    /\ (forall t db u,
          findUser_id db userId = Some u ->
          (fst (unpause t db (Some userId)) = Unpaused
           <-> paused u = true /\ pause_locked u = false)
          /\ (paused u = true -> pause_locked u = false ->
              exists u2,
                findUser_id (snd (unpause t db (Some userId))) userId = Some u2
                /\ (forall r, paused_time_remaining u = Some r ->
                              subscription_expires u2 == t + r)
                /\ paused u2 = false
                /\ paused_time_remaining u2 = None)
          /\ (paused u = false \/ pause_locked u = true ->
              snd (unpause t db (Some userId)) = db))
    /\ exists u2,
         fst (unpause now d1 (Some userId)) = Unpaused
         /\ findUser_id (snd (unpause now d1 (Some userId))) userId = Some u2
         /\ paused u2 = false
         /\ paused_time_remaining u2 = None
         /\ (now <= subscription_expires user ->
             subscription_expires u2 == subscription_expires user)
         /\ (subscription_expires user <= now -> subscription_expires u2 == now).
Proof.
  intros Hf Hp d1.
  set (ups := [SetPaused true; SetPauseLocked false;
               SetPausedTimeRemaining (Some (Qmax 0 (subscription_expires user - now)));
               SetPausedAt (Some now)]).
  assert (Hd1 : d1 = updateUser d userId ups).
  { unfold d1. now rewrite (admin_pause_pauses _ _ _ _ Hf Hp). }
  assert (Hf1 : findUser_id d1 userId = Some (apply_updates user ups)).
  { rewrite Hd1. now apply findUser_id_updateUser. }
  assert (Hu1 : paused (apply_updates user ups) = true
                /\ pause_locked (apply_updates user ups) = false
                /\ paused_time_remaining (apply_updates user ups)
                   = Some (Qmax 0 (subscription_expires user - now))
                /\ subscription_expires (apply_updates user ups)
                   = subscription_expires user)
    by (destruct user; repeat split; reflexivity).
  destruct Hu1 as (Hp1 & Hl1 & Hr1 & He1).
  assert (Hgen : forall t db u,
            findUser_id db userId = Some u ->
            paused u = true -> pause_locked u = false ->
            fst (unpause t db (Some userId)) = Unpaused
            /\ exists u2,
                findUser_id (snd (unpause t db (Some userId))) userId = Some u2
                /\ subscription_expires u2 = t + timeRemaining_of u
                /\ paused u2 = false
                /\ paused_time_remaining u2 = None).
  { intros t db u Hfu Hpu Hlu.
    rewrite (unpause_permitted _ _ _ _ Hfu Hpu Hlu). simpl.
    split; [reflexivity|].
    eexists. split; [apply findUser_id_updateUser; exact Hfu|].
    destruct u; repeat split; reflexivity. }
  exists (apply_updates user ups).
  split; [exact Hf1|]. split; [exact Hp1|]. split; [exact Hl1|].
  split; [exact Hr1|]. split; [exact He1|].
  split.
  { intros t db u Hfu. split; [|split].
    - split.
      + intros Hok.
        destruct (paused u) eqn:Hpu; destruct (pause_locked u) eqn:Hlu;
          try (split; reflexivity); exfalso;
          [ destruct (unpause_refused t _ _ _ Hfu (or_intror Hlu)) as [_ Hn]
          | destruct (unpause_refused t _ _ _ Hfu (or_introl Hpu)) as [_ Hn]
          | destruct (unpause_refused t _ _ _ Hfu (or_introl Hpu)) as [_ Hn] ];
          exact (Hn Hok).
      + intros [Hpu Hlu]. now destruct (Hgen t db u Hfu Hpu Hlu).
    - intros Hpu Hlu.
      destruct (Hgen t db u Hfu Hpu Hlu) as (_ & u2 & Hf2 & He2 & Hp2 & Hr2).
      exists u2. split; [exact Hf2|]. split; [|split; assumption].
      intros r Hr. rewrite He2. unfold timeRemaining_of. rewrite Hr.
      now rewrite num_or_zero.
    - intros Hno. now destruct (unpause_refused t _ _ _ Hfu Hno). }
  destruct (Hgen now d1 _ Hf1 Hp1 Hl1) as (Hok & u2 & Hf2 & He2 & Hp2 & Hr2).
  exists u2. split; [exact Hok|]. split; [exact Hf2|].
  split; [exact Hp2|]. split; [exact Hr2|].
  assert (Hex : subscription_expires u2
                == now + Qmax 0 (subscription_expires user - now)).
  { rewrite He2. unfold timeRemaining_of. rewrite Hr1.
    now rewrite num_or_zero. }
  split; intros Hcmp; rewrite Hex.
  - rewrite Q.max_r by lra. ring.
  - rewrite Q.max_l by lra. ring.
Qed.

Lemma C3_pause_unpause_witness :
  exists u2,
    findUser_id
      (snd (unpause c3_now (snd (admin_pause c3_now c3_db "u-running"))
                    (Some "u-running"%string))) "u-running" = Some u2
    /\ subscription_expires u2 == subscription_expires c3_running.
Proof.
  assert (Hf : findUser_id c3_db "u-running" = Some c3_running) by reflexivity.
  assert (Hp : paused c3_running = false) by reflexivity.
  destruct (C3_pause_unpause c3_now c3_db "u-running" c3_running Hf Hp)
    as (u1 & _ & _ & _ & _ & _ & _ & u2 & _ & Hf2 & _ & _ & Hback & _).
  exists u2. split; [exact Hf2|].
  apply Hback. vm_compute. discriminate.
Defined.

(** C3 as the specification states it fails for a lapsed subscription: Pause then a
    permitted Unpause at the same instant moves the stored expiry from one
    hour ago to now. *)
Lemma C3_counterexample :
  findUser_id c3_db "u-lapsed" = Some c3_lapsed
  /\ paused c3_lapsed = false
  /\ fst (unpause c3_now (snd (admin_pause c3_now c3_db "u-lapsed"))
                  (Some "u-lapsed"%string)) = Unpaused
  /\ exists u2,
       findUser_id
         (snd (unpause c3_now (snd (admin_pause c3_now c3_db "u-lapsed"))
                       (Some "u-lapsed"%string))) "u-lapsed" = Some u2
       /\ subscription_expires u2 - subscription_expires c3_lapsed == hour_ms.
Proof.
  split; [reflexivity|]. split; [reflexivity|]. split; [vm_compute; reflexivity|].
  eexists. split; [vm_compute; reflexivity|]. vm_compute. reflexivity.
Qed.

(** ** Updating each user of a list by id *)

Lemma map_id_update_first uid ups us :
  map id (update_first uid ups us) = map id us.
Proof.
  induction us as [|x us IH]; simpl; [reflexivity|].
  destruct (String.eqb (id x) uid); simpl.
  - now rewrite id_apply_updates.
  - now rewrite IH.
Qed.

Lemma NoDup_id_inj (us : list User) :
  NoDup (map id us) ->
  forall x y, In x us -> In y us -> id x = id y -> x = y.
Proof.
  induction us as [|u us IH]; simpl; intros Hnd x y Hx Hy E; [contradiction|].
  inversion Hnd as [|? ? Hnotin Hnd']; subst.
  destruct Hx as [<-|Hx], Hy as [<-|Hy].
  - reflexivity.
  - exfalso. apply Hnotin. rewrite E. now apply in_map.
  - exfalso. apply Hnotin. rewrite <- E. now apply in_map.
  - now apply IH.
Qed.

Lemma update_first_as_map uid ups us :
  NoDup (map id us) ->
  update_first uid ups us
  = map (fun u => if String.eqb (id u) uid then apply_updates u ups else u) us.
Proof.
  induction us as [|x us IH]; simpl; intros Hnd; [reflexivity|].
  inversion Hnd as [|? ? Hnotin Hnd']; subst.
  destruct (String.eqb (id x) uid) eqn:E.
  - f_equal. apply String.eqb_eq in E. subst uid.
    rewrite <- (map_id us) at 1. apply map_ext_in.
    intros u Hu. destruct (String.eqb (id u) (id x)) eqn:E'; [|reflexivity].
    apply String.eqb_eq in E'. exfalso. apply Hnotin. rewrite <- E'.
    now apply in_map.
  - f_equal. now apply IH.
Qed.

Lemma NoDup_map_filter {A B : Type} (f : A -> B) (P : A -> bool) (l : list A) :
  NoDup (map f l) -> NoDup (map f (filter P l)).
Proof.
  induction l as [|x l IH]; simpl; intros Hnd; [constructor|].
  inversion Hnd as [|? ? Hnotin Hnd']; subst.
  destruct (P x); simpl; [|now apply IH].
  constructor; [|now apply IH].
  intros Hin. apply Hnotin. apply in_map_iff in Hin.
  destruct Hin as (y & Hy & Hiny). apply filter_In in Hiny.
  rewrite <- Hy. apply in_map. tauto.
Qed.

(** A loop that writes each user of [l] once, by id. *)
Lemma fold_update_by_id (F : User -> list Update) (l : list User) (d : DB) :
  NoDup (map id (users d)) -> NoDup (map id l) ->
  fold_left (fun d x => updateUser d (id x) (F x)) l d
  = set_users d
      (map (fun u => match find (fun x => String.eqb (id x) (id u)) l with
                     | Some x => apply_updates u (F x)
                     | None => u
                     end) (users d)).
Proof.
  revert d. induction l as [|x l IH]; intros d Hd Hl; simpl.
  - unfold set_users. rewrite map_id. now destruct d.
  - inversion Hl as [|? ? Hnotin Hl']; subst.
    rewrite IH; [|unfold updateUser; simpl; now rewrite map_id_update_first
                 |exact Hl'].
    unfold updateUser, set_users. simpl. f_equal.
    rewrite update_first_as_map by exact Hd.
    rewrite map_map. apply map_ext. intros u.
    rewrite (String.eqb_sym (id x) (id u)).
    destruct (String.eqb (id u) (id x)) eqn:E; [|reflexivity].
    rewrite id_apply_updates.
    apply String.eqb_eq in E.
    destruct (find (fun x0 => String.eqb (id x0) (id u)) l) as [y|] eqn:Hy;
      [|reflexivity].
    exfalso. apply find_some in Hy. destruct Hy as [Hin Hid].
    apply String.eqb_eq in Hid. apply Hnotin. rewrite <- E, <- Hid.
    now apply in_map.
Qed.

Lemma find_id_filter (P : User -> bool) (us : list User) (u : User) :
  NoDup (map id us) -> In u us ->
  find (fun x => String.eqb (id x) (id u)) (filter P us)
  = if P u then Some u else None.
Proof.
  intros Hnd Hin.
  destruct (find _ (filter P us)) as [y|] eqn:Hy.
  - apply find_some in Hy. destruct Hy as [Hiny Hid].
    apply filter_In in Hiny. destruct Hiny as [Hiny Hpy].
    apply String.eqb_eq in Hid.
    rewrite (NoDup_id_inj us Hnd y u Hiny Hin Hid) in *. now rewrite Hpy.
  - destruct (P u) eqn:Hp; [|reflexivity].
    exfalso.
    assert (Hu : In u (filter P us)) by (apply filter_In; now split).
    apply (find_none _ _ Hy) in Hu. now rewrite String.eqb_refl in Hu.
Qed.

(** A loop over the users selected by [P] writes exactly those users. *)
Lemma fold_update_selected (P : User -> bool) (F : User -> list Update) (d : DB) :
  NoDup (map id (users d)) ->
  fold_left (fun d x => updateUser d (id x) (F x)) (filter P (users d)) d
  = set_users d
      (map (fun u => if P u then apply_updates u (F u) else u) (users d)).
Proof.
  intros Hnd.
  rewrite fold_update_by_id; [|exact Hnd|now apply NoDup_map_filter].
  f_equal. apply map_ext_in. intros u Hu.
  rewrite (find_id_filter P _ u Hnd Hu). now destruct (P u).
Qed.

(** ** C8: the expired subscription checker *)

Lemma demote_fields (u : User) :
  subscription_tier (demote u) = 0%nat
  /\ subscription_expires (demote u) = subscription_expires u
  /\ id (demote u) = id u
  /\ demote (demote u) = demote u.
Proof. destruct u; repeat split; reflexivity. Qed.

Lemma tick_fold_calls (l : list User) (acc : list RoleCall) (d : DB) :
  fst (fold_left expire_one l (acc, d))
  = acc ++ map (fun u => RemoveRoles (discord_id u)) l.
Proof.
  revert acc d. induction l as [|x l IH]; intros acc d; simpl.
  - now rewrite app_nil_r.
  - unfold expire_one at 2. simpl. rewrite IH. now rewrite <- app_assoc.
Qed.

Lemma tick_fold_db (l : list User) (acc : list RoleCall) (d : DB) :
  snd (fold_left expire_one l (acc, d))
  = fold_left (fun d x => updateUser d (id x) [SetTier 0]) l d.
Proof.
  revert acc d. induction l as [|x l IH]; intros acc d; simpl; [reflexivity|].
  unfold expire_one at 2. simpl. apply IH.
Qed.

Lemma just_expired_window now u :
  sweep_ms <= now ->
  (just_expired now u = true
   <-> (0 < subscription_tier u)%nat
       /\ now - sweep_ms < subscription_expires u
       /\ subscription_expires u < now).
Proof.
  intros Hnow. unfold just_expired.
  rewrite !andb_true_iff, Nat.ltb_lt, !Qltb_lt.
  split.
  - intros [[[Ht _] Hlt] Hgt]. auto.
  - intros (Ht & Hgt & Hlt). repeat split; try assumption. lra.
Qed.

(** C8.  A tick at [now] selects exactly the users with tier > 0 whose
    stored expiry lies strictly between now - 5 minutes and now.  For each
    of them, in order, the role collaborator is asked to revoke and the tier
    is set to 0; the stored expiry of every user and every other user are
    left as they were.  A user whose expiry is 10 minutes before now is not
    selected.  No lapse is handled twice: a user handled by this tick is not
    selected by any later tick run on the resulting snapshot, and the windows
    of two ticks at least five minutes apart share no expiry. *)
Theorem C8_reconciler_window now d :
  sweep_ms <= now ->
  NoDup (map id (users d)) ->
  let d' := snd (tick now d) in
  (forall u, just_expired now u = true
             <-> (0 < subscription_tier u)%nat
                 /\ now - 5 * 60 * 1000 < subscription_expires u
                 /\ subscription_expires u < now)
  /\ fst (tick now d)
     = map (fun u => RemoveRoles (discord_id u)) (filter (just_expired now) (users d))
  /\ d' = set_users d
            (map (fun u => if just_expired now u then demote u else u) (users d))
  /\ (forall u, subscription_tier (demote u) = 0%nat
                /\ subscription_expires (demote u) = subscription_expires u)
  /\ map subscription_expires (users d') = map subscription_expires (users d)
  /\ (forall u, subscription_expires u == now - 10 * 60 * 1000 ->
                just_expired now u = false)
  /\ (forall later u', In u' (users d') -> just_expired later u' = true ->
                       In u' (users d) /\ just_expired now u' = false)
  /\ (forall later u, now + 5 * 60 * 1000 <= later ->
                      just_expired now u = true -> just_expired later u = false).
Proof.
  intros Hnow Hnd d'.
  assert (Hd' : d' = set_users d
            (map (fun u => if just_expired now u then demote u else u) (users d))).
  { unfold d', tick. rewrite tick_fold_db.
    now rewrite (fold_update_selected _ (fun _ => [SetTier 0]) _ Hnd). }
  split; [intros u; apply (just_expired_window now u Hnow)|].
  split; [unfold tick; now rewrite tick_fold_calls|].
  split; [exact Hd'|].
  split; [intros u; destruct (demote_fields u) as (H1 & H2 & _); now split|].
  split.
  { rewrite Hd'. simpl. rewrite map_map. apply map_ext. intros u.
    destruct (just_expired now u); [|reflexivity].
    now destruct (demote_fields u) as (_ & H2 & _). }
  split.
  { intros u He. destruct (just_expired now u) eqn:E; [|reflexivity].
    apply (just_expired_window now u Hnow) in E.
    destruct E as (_ & Hgt & _). unfold sweep_ms in Hgt. lra. }
  split.
  { intros later u' Hin Hsel. rewrite Hd' in Hin. simpl in Hin.
    apply in_map_iff in Hin. destruct Hin as (u & Hu & Hin).
    destruct (just_expired now u) eqn:E.
    - exfalso. subst u'. unfold just_expired in Hsel.
      destruct (demote_fields u) as (Ht & _). rewrite Ht in Hsel.
      discriminate Hsel.
    - subst u'. now split. }
  intros later u Hlater Hsel.
  apply (just_expired_window now u Hnow) in Hsel.
  destruct Hsel as (_ & _ & Hlt).
  unfold just_expired. destruct (Qltb (later - sweep_ms) (subscription_expires u)) eqn:E.
  - apply Qltb_lt in E. unfold sweep_ms in E. lra.
  - now rewrite andb_false_r.
Qed.

Lemma C8_reconciler_window_witness :
  fst (tick c8_now c8_db) = [RemoveRoles "u-2min"]
  /\ map subscription_tier (users (snd (tick c8_now c8_db))) = [0; 1; 1]%nat
  /\ map subscription_expires (users (snd (tick c8_now c8_db)))
     = map subscription_expires (users c8_db).
Proof.
  assert (Hnow : sweep_ms <= c8_now) by (vm_compute; discriminate).
  assert (Hnd : NoDup (map id (users c8_db))).
  { simpl. repeat constructor; simpl; intuition discriminate. }
  destruct (C8_reconciler_window c8_now c8_db Hnow Hnd)
    as (_ & Hcalls & Hdb & _ & Hexp & _).
  split; [rewrite Hcalls; reflexivity|].
  split; [rewrite Hdb; reflexivity | exact Hexp].
Defined.

(** ** C4: the order of the licence checks *)

Lemma truthy_spec (h : option string) :
  truthy h = true <-> exists s, h = Some s /\ s <> EmptyString.
Proof.
  unfold truthy. destruct h as [s|].
  - rewrite negb_true_iff, String.eqb_neq. split.
    + intros H. now exists s.
    + intros (s' & [= <-] & H). exact H.
  - split; [discriminate | intros (s & H & _); discriminate H].
Qed.

Lemma isHWIDBanned_In (d : DB) (s : string) :
  isHWIDBanned d s = true <-> In s (banned_hwids d).
Proof.
  unfold isHWIDBanned. rewrite existsb_exists. split.
  - intros (x & Hin & E). apply String.eqb_eq in E. now subst.
  - intros Hin. exists s. split; [exact Hin | apply String.eqb_refl].
Qed.

Lemma banned_device_spec (d : DB) (h : option string) :
  banned_device d h = true
  <-> exists s, h = Some s /\ s <> EmptyString /\ In s (banned_hwids d).
Proof.
  unfold banned_device. destruct h as [s|].
  - rewrite andb_true_iff, truthy_spec, isHWIDBanned_In. split.
    + intros [(s' & [= <-] & Hne) Hin]. now exists s.
    + intros (s' & [= <-] & Hne & Hin). split; [now exists s | exact Hin].
  - split; [discriminate | intros (s & H & _); discriminate H].
Qed.

Lemma license_key_apply_updates (ups : list Update) (u : User) :
  license_key (apply_updates u ups) = license_key u.
Proof.
  unfold apply_updates. revert u.
  induction ups as [|up ups IH]; intros u; simpl; [reflexivity|].
  rewrite IH. destruct u, up; reflexivity.
Qed.

Lemma find_license_update_first (k : string) (ups : list Update)
      (us : list User) (user : User) :
  NoDup (map id us) ->
  find (fun x => String.eqb (license_key x) k) us = Some user ->
  find (fun x => String.eqb (license_key x) k) (update_first (id user) ups us)
  = Some (apply_updates user ups).
Proof.
  induction us as [|x us IH]; simpl; intros Hnd Hfind; [discriminate|].
  inversion Hnd as [|? ? Hnotin Hnd']; subst.
  destruct (String.eqb (license_key x) k) eqn:E.
  - injection Hfind as <-. rewrite String.eqb_refl. simpl.
    now rewrite license_key_apply_updates, E.
  - assert (Hin : In user us) by (apply find_some in Hfind; tauto).
    destruct (String.eqb (id x) (id user)) eqn:E'.
    + apply String.eqb_eq in E'. exfalso. apply Hnotin. rewrite E'.
      now apply in_map.
    + simpl. rewrite E. now apply IH.
Qed.

Lemma validate_updates_binds now user s rb :
  truthy (hwid user) = false -> s <> EmptyString ->
  let ups := validate_updates now user (Some s) rb in
  Nat.ltb 1 (List.length ups) = true
  /\ hwid (apply_updates user ups) = Some s
  /\ hwid_history (apply_updates user ups)
     = hwid_history user ++ [mkHwidEvent s now "set"].
Proof.
  intros Hno Hs. unfold validate_updates. rewrite Hno.
  assert (Ht : truthy (Some s) = true) by (apply truthy_spec; now exists s).
  rewrite Ht. simpl.
  destruct (truthy rb); destruct user; simpl; repeat split; reflexivity.
Qed.

Lemma validate_updates_keeps now user hw rb :
  truthy (hwid user) = true ->
  let ups := validate_updates now user hw rb in
  hwid (apply_updates user ups) = hwid user
  /\ hwid_history (apply_updates user ups) = hwid_history user.
Proof.
  intros Hb. unfold validate_updates. rewrite Hb. simpl.
  destruct (truthy rb); destruct user; simpl; split; reflexivity.
Qed.

(** C4 (amended).  A validation request that carries a licence key is
    decided by the first matching check, in this order: presented deviceId
    in BanSet, Banned; unknown licenceKey, InvalidKey; warnings >= 2, Banned;
    the user's bound deviceId in BanSet, Banned; stored expiry not after now,
    Expired, whether or not the user is paused; a bound deviceId that differs
    from the presented one, HWIDMismatch; otherwise Valid.  Every rejection
    leaves the snapshot as it was.  On Valid, a user without a bound deviceId
    who presents one gets it bound with one history entry appended, and a
    deviceId already bound is never replaced. *)
Theorem C4_validate_order now d k hw rb :
  k <> EmptyString ->
  let r := validate now d (Some k) hw rb in
  (forall s, hw = Some s -> s <> EmptyString -> In s (banned_hwids d) ->
             r = (Banned, d))
  /\ (banned_device d hw = false ->
      findUser_license_key d k = None -> r = (InvalidKey, d))
  /\ (forall user,
        banned_device d hw = false ->
        findUser_license_key d k = Some user ->
        ((2 <= warnings user)%nat -> r = (Banned, d))
        /\ ((warnings user < 2)%nat ->
            (banned_device d (hwid user) = true -> r = (Banned, d))
            /\ (banned_device d (hwid user) = false ->
                (subscription_expires user <= now -> r = (Expired, d))
                /\ (now < subscription_expires user ->
                    (truthy (hwid user) = true -> hwid user <> hw ->
                     r = (HWIDMismatch, d))
                    /\ (truthy (hwid user) = false \/ hwid user = hw ->
                        let ups := validate_updates now user hw rb in
                        fst r = Valid (subscription_tier user)
                                      (PLANS d (subscription_tier user))
                        /\ snd r = (if Nat.ltb 1 (List.length ups)
                                    then updateUser d (id user) ups else d)
                        /\ (truthy (hwid user) = true ->
                            hwid (apply_updates user ups) = hwid user
                            /\ hwid_history (apply_updates user ups)
                               = hwid_history user)
                        /\ (forall s,
                              truthy (hwid user) = false ->
                              hw = Some s -> s <> EmptyString ->
                              snd r = updateUser d (id user) ups
                              /\ hwid (apply_updates user ups) = Some s
                              /\ hwid_history (apply_updates user ups)
                                 = hwid_history user ++ [mkHwidEvent s now "set"]
                              /\ (NoDup (map id (users d)) ->
                                  findUser_license_key (snd r) k
                                  = Some (apply_updates user ups)))))))).
Proof.
  intros Hk r.
  assert (Hkey : truthy (Some k) = true) by (apply truthy_spec; now exists k).
  assert (Hk' : String.eqb k EmptyString = false) by (now apply String.eqb_neq).
  split.
  { intros s -> Hs Hin. unfold r, validate. rewrite Hkey. simpl negb. cbv iota.
    assert (Hb : banned_device d (Some s) = true)
      by (apply banned_device_spec; now exists s).
    now rewrite Hb. }
  split.
  { intros Hb Hf. unfold r, validate. rewrite Hkey. simpl negb. cbv iota.
    now rewrite Hb, Hf. }
  intros user Hb Hf.
  assert (Hr : r = (if Nat.leb 2 (warnings user) then (Banned, d) else
                    if banned_device d (hwid user) then (Banned, d) else
                    if negb (Qltb now (subscription_expires user))
                    then (Expired, d) else
                    if truthy (hwid user) && negb (str_opt_eqb (hwid user) hw)
                    then (HWIDMismatch, d) else
                    (Valid (subscription_tier user)
                           (PLANS d (subscription_tier user)),
                     if Nat.ltb 1 (List.length (validate_updates now user hw rb))
                     then updateUser d (id user) (validate_updates now user hw rb)
                     else d))).
  { unfold r, validate. rewrite Hkey. simpl negb. cbv iota.
    now rewrite Hb, Hf. }
  split.
  { intros Hw. apply Nat.leb_le in Hw. now rewrite Hr, Hw. }
  intros Hw. apply Nat.leb_gt in Hw. rewrite Hw in Hr.
  split.
  { intros Hbu. now rewrite Hr, Hbu. }
  intros Hbu. rewrite Hbu in Hr.
  split.
  { intros He. apply Qltb_ge in He. now rewrite Hr, He. }
  intros He. apply Qltb_lt in He. rewrite He in Hr. simpl negb in Hr. cbv iota in Hr.
  split.
  { intros Ht Hne. rewrite Hr, Ht.
    assert (E : str_opt_eqb (hwid user) hw = false).
    { destruct (hwid user) as [a|], hw as [b|]; simpl; try reflexivity.
      - apply String.eqb_neq. intros ->. now apply Hne.
      - exfalso. now apply Hne. }
    now rewrite E. }
  intros Hok ups.
  assert (E : truthy (hwid user) && negb (str_opt_eqb (hwid user) hw) = false).
  { destruct Hok as [Hno | Heq]; [now rewrite Hno|].
    rewrite <- Heq. destruct (hwid user) as [a|]; simpl.
    - rewrite String.eqb_refl. apply andb_false_r.
    - reflexivity. }
  rewrite E in Hr. rewrite Hr. cbn [fst snd]. fold ups.
  split; [reflexivity|]. split; [reflexivity|].
  split; [intros Ht; now apply validate_updates_keeps|].
  intros s Hno -> Hs.
  destruct (validate_updates_binds now user s rb Hno Hs) as (Hlen & Hh & Hhist).
  fold ups in Hlen, Hh, Hhist. rewrite Hlen.
  split; [reflexivity|]. split; [exact Hh|]. split; [exact Hhist|].
  intros Hnd. unfold findUser_license_key in *. rewrite Hk' in *.
  unfold updateUser, set_users. cbn [users].
  now apply find_license_update_first.
Qed.

Lemma C4_validate_order_witness :
  fst (validate c4_t0 c4_db (Some c4_key) (Some c4_hwid) None)
  = Valid 1 (PLANS c4_db 1)
  /\ exists u',
       findUser_license_key
         (snd (validate c4_t0 c4_db (Some c4_key) (Some c4_hwid) None)) c4_key
       = Some u'
       /\ hwid u' = Some c4_hwid
       /\ hwid_history u' = [mkHwidEvent c4_hwid c4_t0 "set"].
Proof.
  assert (Hk : c4_key <> EmptyString) by discriminate.
  pose proof (C4_validate_order c4_t0 c4_db c4_key (Some c4_hwid) None Hk) as H.
  cbv zeta in H. destruct H as (_ & _ & H).
  specialize (H c4_user eq_refl eq_refl). destruct H as (_ & H).
  assert (Hw : (warnings c4_user < 2)%nat) by (simpl; lia).
  destruct (H Hw) as (_ & H1). destruct (H1 eq_refl) as (_ & H2).
  assert (He : c4_t0 < subscription_expires c4_user) by (vm_compute; reflexivity).
  destruct (H2 He) as (_ & H3).
  destruct (H3 (or_introl eq_refl)) as (Hv & _ & _ & H4).
  split; [exact Hv|].
  assert (Hs : c4_hwid <> EmptyString) by discriminate.
  destruct (H4 c4_hwid eq_refl eq_refl Hs) as (_ & Hh & Hhist & Hfind).
  eexists. split; [apply Hfind|split; [exact Hh | exact Hhist]].
  simpl. repeat constructor. simpl. tauto.
Defined.

(** C4 as the specification states it fails for a paused user: with five
    hours frozen the effective-read rule calls the user active six hours after
    the pause, and no earlier check matches, yet the handler answers
    Expired because it reads the stored expiry only. *)
Lemma C4_counterexample :
  exists user r,
    findUser_license_key (snd (admin_pause c4_t0 c4_db "u-p")) c4_key = Some user
    /\ banned_device (snd (admin_pause c4_t0 c4_db "u-p")) (Some c4_hwid) = false
    /\ (warnings user < 2)%nat
    /\ banned_device (snd (admin_pause c4_t0 c4_db "u-p")) (hwid user) = false
    /\ paused user = true
    /\ paused_time_remaining user = Some r /\ r == 5 * hour_ms
    /\ isActive_spec user c4_now = true
    /\ fst (validate c4_now (snd (admin_pause c4_t0 c4_db "u-p"))
                     (Some c4_key) (Some c4_hwid) None) = Expired.
Proof.
  eexists. eexists.
  split; [vm_compute; reflexivity|].
  split; [reflexivity|].
  split; [simpl; lia|].
  split; [reflexivity|].
  split; [reflexivity|].
  split; [vm_compute; reflexivity|].
  split; [vm_compute; reflexivity|].
  split; vm_compute; reflexivity.
Qed.

(** ** C5: two warnings ban the bound device *)






(** ** C6: locking everybody under the global pause *)

(** The write made by lock-all for a non-paused user under the global pause
    sets the two flags and nothing else. *)
Lemma lock_one_global_fields (u : User) :
  let u' := apply_updates u [SetPaused true; SetPauseLocked true] in
  paused u' = true /\ pause_locked u' = true
  /\ paused_time_remaining u' = paused_time_remaining u
  /\ subscription_expires u' = subscription_expires u.
Proof. destruct u; repeat split; reflexivity. Qed.

Lemma lock_one_as_update (d : DB) (user : User) :
  lock_one d user = updateUser d (id user) (lock_updates (global_paused d) user).
Proof.
  unfold lock_one, lock_updates.
  now destruct (global_paused d && negb (paused user)).
Qed.

Lemma lock_fold_as_updates (l : list User) (d : DB) :
  fold_left lock_one l d
  = fold_left (fun d x => updateUser d (id x) (lock_updates (global_paused d) x)) l d.
Proof.
  revert d. induction l as [|x l IH]; intros d; simpl; [reflexivity|].
  now rewrite lock_one_as_update, IH.
Qed.

Lemma lock_fold_fixed_flag (g : bool) (l : list User) (d : DB) :
  global_paused d = g ->
  fold_left (fun d x => updateUser d (id x) (lock_updates (global_paused d) x)) l d
  = fold_left (fun d x => updateUser d (id x) (lock_updates g x)) l d.
Proof.
  revert d. induction l as [|x l IH]; intros d Hg; simpl; [reflexivity|].
  rewrite Hg. apply IH. exact Hg.
Qed.

(** What lock-all does while the global pause is on: every user with a
    running subscription that is not yet locked gets the lock; those not yet
    paused also get the paused flag, and nothing else is written. *)
Lemma lock_all_paused_global now d :
  global_paused d = true ->
  NoDup (map id (users d)) ->
  snd (lock_all_paused now d)
  = set_users d
      (map (fun u => if Nat.ltb 0 (subscription_tier u)
                        && Qltb now (subscription_expires u)
                        && negb (pause_locked u)
                     then apply_updates u (lock_updates true u)
                     else u) (users d)).
Proof.
  intros Hg Hnd. unfold lock_all_paused, usersToLock_of. rewrite Hg.
  set (P := fun u => Nat.ltb 0 (subscription_tier u)
                     && Qltb now (subscription_expires u)
                     && negb (pause_locked u)).
  transitivity (fold_left (fun d x => updateUser d (id x) (lock_updates true x))
                          (filter P (users d)) d).
  - rewrite <- (lock_fold_fixed_flag true _ d Hg), <- lock_fold_as_updates.
    now destruct (filter P (users d)).
  - exact (fold_update_selected P (lock_updates true) d Hnd).
Qed.

(** Under the global pause lock-all leaves [paused_time_remaining] of every
    user as it was: a user that it pauses has nothing frozen. *)
Lemma lock_all_paused_global_freezes_nothing now d :
  global_paused d = true ->
  NoDup (map id (users d)) ->
  map paused_time_remaining (users (snd (lock_all_paused now d)))
  = map paused_time_remaining (users d)
  /\ map subscription_expires (users (snd (lock_all_paused now d)))
     = map subscription_expires (users d).
Proof.
  intros Hg Hnd. rewrite (lock_all_paused_global now d Hg Hnd). simpl.
  rewrite !map_map. split; apply map_ext; intros u;
    destruct (_ && _); try reflexivity;
    unfold lock_updates; simpl; destruct (paused u); destruct u; reflexivity.
Qed.

(** C6.  Evaluation at the failing input.  The global pause is on and the
    user has two Bronze hours running.  Lock-all turns the user into
    paused and locked, and both flags survive the clearing of the global
    flag, but no remaining time is frozen: [paused_time_remaining] stays
    null.  The stored expiry keeps running out while the user is paused, and
    an admin unpause three hours later restores an expiry of that instant:
    the two hours are gone. *)
Theorem C6_lock_all_freezes_nothing :
  global_paused c6_db = true
  /\ (exists u0, findUser_id c6_db "u-g" = Some u0
                 /\ subscription_tier u0 = 1%nat
                 /\ paused u0 = false
                 /\ subscription_expires u0 == c6_now + 2 * hour_ms)
  /\ fst (lock_all_paused (c6_now + 2000) c6_db) = LockedAll 1
  /\ (exists u1,
        findUser_id (snd (lock_all_paused (c6_now + 2000) c6_db)) "u-g" = Some u1
        /\ paused u1 = true /\ pause_locked u1 = true
        /\ paused_time_remaining u1 = None
        /\ findUser_id
             (snd (pause_all (snd (lock_all_paused (c6_now + 2000) c6_db)))) "u-g"
           = Some u1)
  /\ global_paused (snd (pause_all (snd (lock_all_paused (c6_now + 2000) c6_db))))
     = false
  /\ (exists u2,
        findUser_id
          (snd (admin_pause (c6_now + 3 * hour_ms)
                  (snd (pause_all (snd (lock_all_paused (c6_now + 2000) c6_db))))
                  "u-g")) "u-g" = Some u2
        /\ paused u2 = false
        /\ subscription_expires u2 == c6_now + 3 * hour_ms).
Proof.
  split; [reflexivity|].
  split; [eexists; split; [vm_compute; reflexivity|];
          repeat split; vm_compute; reflexivity|].
  split; [vm_compute; reflexivity|].
  split; [eexists; split; [vm_compute; reflexivity|];
          repeat split; vm_compute; reflexivity|].
  split; [reflexivity|].
  eexists; split; [vm_compute; reflexivity|].
  split; vm_compute; reflexivity.
Qed.

(** ** C7: the pause invariant *)

Lemma Forall_update_first (P : User -> Prop) uid ups us :
  (forall u, P u -> P (apply_updates u ups)) ->
  Forall P us -> Forall P (update_first uid ups us).
Proof.
  intros Hups. induction 1 as [|x us Hx Hus IH]; simpl; [constructor|].
  destruct (String.eqb (id x) uid); constructor; auto.
Qed.

Lemma db_pause_inv_updateUser d uid ups :
  (forall u, pause_inv u -> pause_inv (apply_updates u ups)) ->
  db_pause_inv d -> db_pause_inv (updateUser d uid ups).
Proof.
  intros Hups Hd. unfold db_pause_inv, updateUser. simpl.
  now apply Forall_update_first.
Qed.

Ltac keeps_pause_inv :=
  let u := fresh "u" in
  let H := fresh "H" in
  intros u H; destruct u; unfold pause_inv in *; simpl in *;
  try exact H; split; intros; congruence.

Lemma db_pause_inv_fold_tick l acc d :
  db_pause_inv d -> db_pause_inv (snd (fold_left expire_one l (acc, d))).
Proof.
  revert acc d. induction l as [|x l IH]; intros acc d Hd; simpl; [exact Hd|].
  apply IH. unfold expire_one. simpl.
  apply db_pause_inv_updateUser; [keeps_pause_inv | exact Hd].
Qed.

Lemma db_pause_inv_fold_lock l d :
  global_paused d = false ->
  db_pause_inv d -> db_pause_inv (fold_left lock_one l d).
Proof.
  revert d. induction l as [|x l IH]; intros d Hg Hd; simpl; [exact Hd|].
  apply IH.
  - unfold lock_one. rewrite Hg. exact Hg.
  - unfold lock_one. rewrite Hg. simpl.
    apply db_pause_inv_updateUser; [keeps_pause_inv | exact Hd].
Qed.

Lemma subscribe_db_after now d rq :
  db_after (subscribe now d rq) = d
  \/ exists uid nb t ex,
       db_after (subscribe now d rq)
       = updateUser d uid [SetBalance nb; SetTier t; SetExpires ex].
Proof.
  unfold subscribe.
  repeat match goal with
         | |- context [match ?x with _ => _ end] =>
             destruct x eqn:?; try (left; reflexivity)
         end.
  right. eexists _, _, _, _. reflexivity.
Qed.

(** Every operation keeps the pause invariant, except lock-all issued while
    the global pause is on. *)
Lemma exec_keeps_pause_inv now op d :
  spares_pause_inv op d ->
  db_pause_inv d -> db_pause_inv (exec now op d).
Proof.
  intros Hspare Hd. destruct op; simpl.
  - unfold admin_add_balance. destruct (findUser_id d userId); simpl; [|exact Hd].
    apply db_pause_inv_updateUser; [keeps_pause_inv | exact Hd].
  - destruct (subscribe_db_after now d rq) as [-> | (uid & nb & t & ex & ->)];
      [exact Hd|].
    apply db_pause_inv_updateUser; [keeps_pause_inv | exact Hd].
  - unfold admin_pause. destruct (findUser_id d userId); simpl; [|exact Hd].
    destruct (paused u); simpl;
      (apply db_pause_inv_updateUser; [keeps_pause_inv | exact Hd]).
  - unfold unpause. destruct session as [uid|]; [|exact Hd].
    destruct (findUser_id d uid) as [u|]; [|exact Hd].
    destruct (paused u); simpl; [|exact Hd].
    destruct (pause_locked u); simpl; [exact Hd|].
    apply db_pause_inv_updateUser; [keeps_pause_inv | exact Hd].
  - unfold lock_pause. destruct (findUser_id d userId) as [u|]; [|exact Hd].
    destruct (paused u); simpl; [|exact Hd].
    apply db_pause_inv_updateUser; [keeps_pause_inv | exact Hd].
  - exact Hd.
  - unfold lock_all_paused.
    destruct (usersToLock_of now d) as [|x l]; [exact Hd|].
    cbn [snd]. apply db_pause_inv_fold_lock; [now apply Hspare | exact Hd].
  - unfold warn. destruct (findUser_id d userId) as [u|]; [|exact Hd].
    assert (H1 : db_pause_inv (updateUser d userId [SetWarnings (warnings u + 1)]))
      by (apply db_pause_inv_updateUser; [keeps_pause_inv | exact Hd]).
    destruct (hwid u); [|exact H1].
    destruct (_ && _); [|exact H1].
    destruct (negb _); exact H1.
  - unfold tick. now apply db_pause_inv_fold_tick.
Qed.

Lemma createdUser_pause_inv uid discord key now :
  pause_inv (createdUser uid discord key now).
Proof. unfold pause_inv. simpl. split; [discriminate | congruence]. Qed.

(** Along a sequence of operations the invariant can only be lost by a
    lock-all issued while the global pause is on. *)
Lemma run_keeps_pause_inv trace d :
  trace_spares_pause_inv trace d ->
  db_pause_inv d -> db_pause_inv (run trace d).
Proof.
  revert d. induction trace as [|[now op] rest IH]; intros d Hs Hd; simpl;
    [exact Hd|].
  destruct Hs as [Hop Hrest].
  apply IH; [exact Hrest|]. now apply exec_keeps_pause_inv.
Qed.

(** C7.  Evaluation at the failing input.  Starting from a freshly created
    user, which satisfies the invariant, the sequence top-up, Subscribe,
    global pause on, lock-all reaches a state in which the user is paused
    while [paused_time_remaining] is null, so frozen-remaining-duration is
    not "non-null iff paused". *)
Theorem C7_pause_invariant_broken :
  db_pause_inv c6_fresh_db
  /\ (exists u, findUser_id (run c6_trace c6_fresh_db) "u-g" = Some u
                /\ paused u = true
                /\ paused_time_remaining u = None)
  /\ ~ db_pause_inv (run c6_trace c6_fresh_db).
Proof.
  split.
  { unfold db_pause_inv, c6_fresh_db. simpl. constructor; [|constructor].
    apply createdUser_pause_inv. }
  assert (Hu : exists u, findUser_id (run c6_trace c6_fresh_db) "u-g" = Some u
                         /\ paused u = true
                         /\ paused_time_remaining u = None).
  { eexists. split; [vm_compute; reflexivity|]. split; reflexivity. }
  split; [exact Hu|].
  destruct Hu as (u & Hf & Hp & Hr). intros Hinv.
  apply findUser_id_spec in Hf. destruct Hf as [_ Hin].
  unfold db_pause_inv in Hinv. rewrite Forall_forall in Hinv.
  specialize (Hinv u Hin). unfold pause_inv in Hinv.
  apply (proj1 Hinv Hp). exact Hr.
Qed.

(** * Properties of the further routes *)

(** ** Users are never removed and never change identity *)

Lemma identity_apply_updates (ups : list Update) (u : User) :
  identity (apply_updates u ups) = identity u.
Proof.
  unfold apply_updates. revert u.
  induction ups as [|up ups IH]; intros u; simpl; [reflexivity|].
  rewrite IH. destruct u, up; reflexivity.
Qed.

Lemma map_identity_update_first uid ups us :
  map identity (update_first uid ups us) = map identity us.
Proof.
  induction us as [|x us IH]; simpl; [reflexivity|].
  destruct (String.eqb (id x) uid); simpl.
  - now rewrite identity_apply_updates.
  - now rewrite IH.
Qed.






(** ** A bound device is only cleared by a reset *)









Lemma findUser_license_key_In d k user :
  findUser_license_key d k = Some user -> In user (users d).
Proof.
  unfold findUser_license_key. destruct (String.eqb k EmptyString); [discriminate|].
  intros H. apply find_some in H. tauto.
Qed.



(** ** Resetting the device binding *)

Lemma findUser_id_of_In d u :
  NoDup (map id (users d)) -> In u (users d) -> id u <> EmptyString ->
  findUser_id d (id u) = Some u.
Proof.
  intros Hnd Hin Hne. unfold findUser_id.
  apply String.eqb_neq in Hne. rewrite Hne.
  destruct (find (fun x => String.eqb (id x) (id u)) (users d)) as [x|] eqn:Hf.
  - apply find_some in Hf. destruct Hf as [Hx E]. apply String.eqb_eq in E.
    now rewrite (NoDup_id_inj _ Hnd x u Hx Hin E).
  - apply (find_none _ _ Hf) in Hin. now rewrite String.eqb_refl in Hin.
Qed.

Lemma findUser_license_key_updateUser d k ups user :
  NoDup (map id (users d)) ->
  findUser_license_key d k = Some user ->
  findUser_license_key (updateUser d (id user) ups) k
  = Some (apply_updates user ups).
Proof.
  intros Hnd. unfold findUser_license_key.
  destruct (String.eqb k EmptyString); [discriminate|].
  intros Hf. unfold updateUser, set_users. cbn [users].
  now apply find_license_update_first.
Qed.

Lemma NoDup_id_updateUser d uid ups :
  NoDup (map id (users d)) -> NoDup (map id (users (updateUser d uid ups))).
Proof.
  intros H. unfold updateUser. simpl. now rewrite map_id_update_first.
Qed.

(** The decision of [validate] once the key is present, the presented
    device is not banned and the key is known. *)
Lemma validate_found now d k hw rb user :
  k <> EmptyString ->
  banned_device d hw = false ->
  findUser_license_key d k = Some user ->
  validate now d (Some k) hw rb
  = if Nat.leb 2 (warnings user) then (Banned, d) else
    if banned_device d (hwid user) then (Banned, d) else
    if negb (Qltb now (subscription_expires user)) then (Expired, d) else
    if truthy (hwid user) && negb (str_opt_eqb (hwid user) hw)
    then (HWIDMismatch, d) else
    (Valid (subscription_tier user) (PLANS d (subscription_tier user)),
     if Nat.ltb 1 (List.length (validate_updates now user hw rb))
     then updateUser d (id user) (validate_updates now user hw rb)
     else d).
Proof.
  intros Hk Hb Hf. unfold validate.
  assert (Hkey : truthy (Some k) = true) by (apply truthy_spec; now exists k).
  rewrite Hkey. cbn [negb]. now rewrite Hb, Hf.
Qed.

Lemma banned_device_not_In d s :
  ~ In s (banned_hwids d) -> banned_device d (Some s) = false.
Proof.
  intros Hnot. destruct (banned_device d (Some s)) eqn:E; [|reflexivity].
  apply banned_device_spec in E. destruct E as (s' & [= <-] & _ & Hin).
  contradiction.
Qed.

(** X3.  Reset and rebind.  A user bound to device [a] who presents another
    device [b] is refused with HWIDMismatch.  After the user's own
    reset-hwid the binding is cleared and the old device is in the history;
    the next validation with [b] is Valid and binds [b], and the history
    reads: what it was, then the reset of [a], then the set of [b]. *)
Theorem reset_then_rebind now1 now2 now3 d k a b rb user :
  NoDup (map id (users d)) ->
  k <> EmptyString -> findUser_license_key d k = Some user ->
  id user <> EmptyString ->
  hwid user = Some a -> a <> EmptyString -> b <> EmptyString -> a <> b ->
  (warnings user < 2)%nat ->
  ~ In a (banned_hwids d) -> ~ In b (banned_hwids d) ->
  now1 < subscription_expires user -> now3 < subscription_expires user ->
  let d1 := snd (reset_hwid now2 d (Some (id user))) in
  let r := validate now3 d1 (Some k) (Some b) rb in
  validate now1 d (Some k) (Some b) rb = (HWIDMismatch, d)
  /\ fst (reset_hwid now2 d (Some (id user))) = ResetDone
  /\ (exists u1,
        findUser_license_key d1 k = Some u1
        /\ hwid u1 = None
        /\ hwid_history u1 = hwid_history user ++ [mkHwidEvent a now2 "reset"])
  /\ fst r = Valid (subscription_tier user) (PLANS d (subscription_tier user))
  /\ (exists u2,
        findUser_license_key (snd r) k = Some u2
        /\ hwid u2 = Some b
        /\ hwid_history u2
           = hwid_history user
             ++ [mkHwidEvent a now2 "reset"; mkHwidEvent b now3 "set"]).
Proof.
  intros Hnd Hk Hf Hid Ha Hane Hbne Hab Hw Hna Hnb He1 He3 d1 r.
  pose proof (findUser_license_key_In _ _ _ Hf) as Hin.
  pose proof (findUser_id_of_In d user Hnd Hin Hid) as Hfid.
  pose proof (banned_device_not_In d b Hnb) as Hbb.
  assert (Hta : truthy (hwid user) = true)
    by (rewrite Ha; apply truthy_spec; now exists a).
  apply Nat.leb_gt in Hw.
  apply Qltb_lt in He1. apply Qltb_lt in He3.
  split.
  { rewrite (validate_found now1 d k (Some b) rb user Hk Hbb Hf).
    rewrite Hw, He1, Hta, Ha.
    rewrite (banned_device_not_In d a Hna). simpl.
    assert (E : String.eqb a b = false) by (now apply String.eqb_neq).
    now rewrite E. }
  set (ups1 := [SetHwid None; SetHwidHistory (reset_history now2 user "reset")]).
  assert (Hd1 : reset_hwid now2 d (Some (id user))
                = (ResetDone, updateUser d (id user) ups1)).
  { unfold reset_hwid. now rewrite Hfid. }
  assert (Ed1 : d1 = updateUser d (id user) ups1) by (unfold d1; now rewrite Hd1).
  split; [now rewrite Hd1|].
  set (u1 := apply_updates user ups1).
  assert (Hf1 : findUser_license_key d1 k = Some u1).
  { rewrite Ed1. now apply findUser_license_key_updateUser. }
  assert (Hh : reset_history now2 user "reset"
               = hwid_history user ++ [mkHwidEvent a now2 "reset"]).
  { unfold reset_history. now rewrite Hta, Ha. }
  assert (Hu1 : hwid u1 = None
                /\ hwid_history u1 = hwid_history user ++ [mkHwidEvent a now2 "reset"]
                /\ warnings u1 = warnings user
                /\ subscription_expires u1 = subscription_expires user
                /\ subscription_tier u1 = subscription_tier user
                /\ id u1 = id user).
  { unfold u1, ups1. rewrite Hh. destruct user; repeat split; reflexivity. }
  destruct Hu1 as (Hh1 & Hhist1 & Hw1 & He1' & Ht1 & Hid1).
  split; [exists u1; repeat split; assumption|].
  assert (Hnd1 : NoDup (map id (users d1)))
    by (rewrite Ed1; now apply NoDup_id_updateUser).
  assert (Hbb1 : banned_device d1 (Some b) = false)
    by (rewrite Ed1; exact Hbb).
  assert (Hr : r = (Valid (subscription_tier user) (PLANS d (subscription_tier user)),
                    updateUser d1 (id u1) (validate_updates now3 u1 (Some b) rb))).
  { unfold r. rewrite (validate_found now3 d1 k (Some b) rb u1 Hk Hbb1 Hf1).
    rewrite Hw1, He1', Hw, He3, Hh1, Ht1. cbn [banned_device truthy negb andb].
    destruct (validate_updates_binds now3 u1 b rb) as (Hlen & _);
      [now rewrite Hh1 | exact Hbne |].
    rewrite Hlen. rewrite Ed1. reflexivity. }
  split; [now rewrite Hr|].
  exists (apply_updates u1 (validate_updates now3 u1 (Some b) rb)).
  rewrite Hr. cbn [snd].
  split; [now apply findUser_license_key_updateUser|].
  destruct (validate_updates_binds now3 u1 b rb) as (_ & Hb2 & Hhist2);
    [now rewrite Hh1 | exact Hbne |].
  split; [exact Hb2|]. rewrite Hhist2, Hhist1, <- app_assoc. reflexivity.
Qed.

Lemma reset_then_rebind_witness :
  validate 0 c5_db (Some "ULTRA-WWWW-WWWW-WWWW-WWWW"%string)
           (Some "HW-NEW"%string) None = (HWIDMismatch, c5_db)
  /\ exists u2,
       findUser_license_key
         (snd (validate 2 (snd (reset_hwid 1 c5_db (Some "u-w"%string)))
                        (Some "ULTRA-WWWW-WWWW-WWWW-WWWW"%string)
                        (Some "HW-NEW"%string) None))
         "ULTRA-WWWW-WWWW-WWWW-WWWW" = Some u2
       /\ hwid u2 = Some "HW-NEW"%string
       /\ hwid_history u2
          = [mkHwidEvent "HW-W" 1 "reset"; mkHwidEvent "HW-NEW" 2 "set"].
Proof.
  assert (Hnd : NoDup (map id (users c5_db))).
  { simpl. repeat constructor. simpl. tauto. }
  pose proof (reset_then_rebind 0 1 2 c5_db "ULTRA-WWWW-WWWW-WWWW-WWWW"
                "HW-W" "HW-NEW" None c5_user Hnd) as H.
  cbv zeta in H.
  destruct H as (Hm & _ & _ & _ & u2 & Hf2 & Hh2 & Hhist2);
    try discriminate; try reflexivity.
  - simpl. lia.
  - simpl. tauto.
  - simpl. tauto.
  - split; [exact Hm|]. exists u2. repeat split; assumption.
Defined.

(** ** Banning and unbanning *)

Lemma validate_banned_by_warnings now d k hw rb user :
  k <> EmptyString ->
  findUser_license_key d k = Some user ->
  (2 <= warnings user)%nat ->
  fst (validate now d (Some k) hw rb) = Banned.
Proof.
  intros Hk Hf Hw. destruct (banned_device d hw) eqn:Hb.
  - unfold validate.
    assert (Hkey : truthy (Some k) = true) by (apply truthy_spec; now exists k).
    now rewrite Hkey, Hb.
  - rewrite (validate_found now d k hw rb user Hk Hb Hf).
    apply Nat.leb_le in Hw. now rewrite Hw.
Qed.

Lemma not_In_unbanned (h : string) (l : list string) :
  ~ In h (filter (fun x => negb (String.eqb x h)) l).
Proof.
  intros H. apply filter_In in H. destruct H as [_ H].
  now rewrite String.eqb_refl in H.
Qed.

(** X4.  Banning a user who has a bound device puts the device in BanSet
    (appended once if it was absent, nothing added if it was there) and sets
    the warning count to 99, so every validation of the user's key, with any
    device or none, answers Banned.  Unbanning the device alone takes it out
    of BanSet but the key stays Banned; unban-user takes the device out,
    resets the warnings to 0, and a validation with the bound device is no
    longer answered Banned. *)
Theorem ban_and_unban d uid k user h :
  NoDup (map id (users d)) ->
  findUser_id d uid = Some user ->
  findUser_license_key d k = Some user -> k <> EmptyString ->
  hwid user = Some h -> h <> EmptyString ->
  let d1 := snd (admin_ban d uid) in
  let d2 := admin_unban d1 h in
  let d3 := snd (admin_unban_user d1 uid) in
  fst (admin_ban d uid) = BannedHwid h
  /\ In h (banned_hwids d1)
  /\ (In h (banned_hwids d) -> banned_hwids d1 = banned_hwids d)
  /\ (~ In h (banned_hwids d) -> banned_hwids d1 = banned_hwids d ++ [h])
  /\ (exists u1, findUser_license_key d1 k = Some u1 /\ warnings u1 = 99%nat)
  /\ (forall now hw rb, fst (validate now d1 (Some k) hw rb) = Banned)
  /\ ~ In h (banned_hwids d2)
  /\ (forall now hw rb, fst (validate now d2 (Some k) hw rb) = Banned)
  /\ ~ In h (banned_hwids d3)
  /\ (exists u3, findUser_license_key d3 k = Some u3 /\ warnings u3 = 0%nat
                 /\ hwid u3 = Some h)
  /\ (forall now rb, fst (validate now d3 (Some k) (Some h) rb) <> Banned).
Proof.
  intros Hnd Hfid Hf Hk Hh Hne d1 d2 d3.
  destruct (findUser_id_spec _ _ _ Hfid) as [Hid Hin]. subst uid.
  assert (Ht : truthy (hwid user) = true)
    by (rewrite Hh; apply truthy_spec; now exists h).
  set (d0 := if negb (isHWIDBanned d h)
             then set_banned_hwids d (banned_hwids d ++ [h]) else d).
  assert (Hban : admin_ban d (id user)
                 = (BannedHwid h, updateUser d0 (id user) [SetWarnings 99])).
  { unfold admin_ban. now rewrite Hfid, Hh, <- Hh, Ht. }
  assert (Ed1 : d1 = updateUser d0 (id user) [SetWarnings 99])
    by (unfold d1; now rewrite Hban).
  assert (Hu0 : users d0 = users d) by (unfold d0; now destruct (negb _)).
  assert (Hb1 : banned_hwids d1 = banned_hwids d0) by (now rewrite Ed1).
  assert (Hin1 : In h (banned_hwids d1)).
  { rewrite Hb1. unfold d0. destruct (isHWIDBanned d h) eqn:E; simpl.
    - now apply isHWIDBanned_In.
    - apply in_or_app. right. now left. }
  set (u1 := apply_updates user [SetWarnings 99]).
  assert (Hnd0 : NoDup (map id (users d0))) by (now rewrite Hu0).
  assert (Hf0 : findUser_license_key d0 k = Some user).
  { unfold findUser_license_key in *. now rewrite Hu0. }
  assert (Hf1 : findUser_license_key d1 k = Some u1).
  { rewrite Ed1. now apply findUser_license_key_updateUser. }
  assert (Hu1 : warnings u1 = 99%nat /\ hwid u1 = Some h /\ id u1 = id user).
  { unfold u1. destruct user; simpl in *. now subst. }
  destruct Hu1 as (Hw1 & Hh1 & Hid1).
  split; [now rewrite Hban|]. split; [exact Hin1|].
  split.
  { intros Hin0. rewrite Hb1. unfold d0.
    apply isHWIDBanned_In in Hin0. now rewrite Hin0. }
  split.
  { intros Hnot. rewrite Hb1. unfold d0.
    destruct (isHWIDBanned d h) eqn:E; [|reflexivity].
    apply isHWIDBanned_In in E. contradiction. }
  split; [exists u1; now split|].
  split.
  { intros now hw rb. apply (validate_banned_by_warnings now d1 k hw rb u1 Hk Hf1).
    rewrite Hw1. lia. }
  split; [apply not_In_unbanned|].
  split.
  { intros now hw rb.
    apply (validate_banned_by_warnings now d2 k hw rb u1 Hk); [exact Hf1|].
    rewrite Hw1. lia. }
  assert (Hnd1 : NoDup (map id (users d1)))
    by (rewrite Ed1; now apply NoDup_id_updateUser).
  assert (Hin_u1 : In u1 (users d1)) by (now apply (findUser_license_key_In d1 k)).
  assert (Hid_ne : id user <> EmptyString).
  { intros E. unfold findUser_id in Hfid. rewrite E in Hfid. discriminate Hfid. }
  assert (Hfid1 : findUser_id d1 (id user) = Some u1).
  { rewrite <- Hid1. apply findUser_id_of_In; [exact Hnd1 | exact Hin_u1|].
    now rewrite Hid1. }
  assert (Hbd1 : banned_device d1 (hwid u1) = true).
  { rewrite Hh1. apply banned_device_spec. now exists h. }
  assert (Hunban : admin_unban_user d1 (id user)
                   = (UnbannedUser true (Some h),
                      updateUser (admin_unban d1 h) (id user) [SetWarnings 0])).
  { unfold admin_unban_user. rewrite Hfid1, Hbd1, Hh1. reflexivity. }
  assert (Ed3 : d3 = updateUser d2 (id user) [SetWarnings 0])
    by (unfold d3; now rewrite Hunban).
  assert (Hb3 : ~ In h (banned_hwids d3)).
  { rewrite Ed3. apply not_In_unbanned. }
  set (u3 := apply_updates u1 [SetWarnings 0]).
  assert (Hf3 : findUser_license_key d3 k = Some u3).
  { rewrite Ed3, <- Hid1. apply findUser_license_key_updateUser; assumption. }
  assert (Hu3 : warnings u3 = 0%nat /\ hwid u3 = Some h).
  { unfold u3, u1. destruct user; simpl in *. now subst. }
  destruct Hu3 as (Hw3 & Hh3).
  split; [exact Hb3|].
  split; [exists u3; repeat split; assumption|].
  intros now rb.
  rewrite (validate_found now d3 k (Some h) rb u3 Hk
             (banned_device_not_In d3 h Hb3) Hf3).
  rewrite Hw3, Hh3, (banned_device_not_In d3 h Hb3). cbn [Nat.leb].
  destruct (negb (Qltb now (subscription_expires u3))); [cbn [fst]; discriminate|].
  assert (E : truthy (Some h) && negb (str_opt_eqb (Some h) (Some h)) = false).
  { simpl. rewrite String.eqb_refl. apply andb_false_r. }
  rewrite E. cbn [fst]. discriminate.
Qed.

Lemma ban_and_unban_witness :
  fst (validate 0 (snd (admin_ban c5_db "u-w"))
                (Some "ULTRA-WWWW-WWWW-WWWW-WWWW"%string) None None) = Banned
  /\ fst (validate 0 (admin_unban (snd (admin_ban c5_db "u-w")) "HW-W")
                   (Some "ULTRA-WWWW-WWWW-WWWW-WWWW"%string)
                   (Some "HW-W"%string) None) = Banned
  /\ fst (validate 0 (snd (admin_unban_user (snd (admin_ban c5_db "u-w")) "u-w"))
                   (Some "ULTRA-WWWW-WWWW-WWWW-WWWW"%string)
                   (Some "HW-W"%string) None) <> Banned.
Proof.
  assert (Hnd : NoDup (map id (users c5_db))).
  { simpl. repeat constructor. simpl. tauto. }
  assert (Hk : "ULTRA-WWWW-WWWW-WWWW-WWWW"%string <> EmptyString) by discriminate.
  assert (Hh : "HW-W"%string <> EmptyString) by discriminate.
  pose proof (ban_and_unban c5_db "u-w" "ULTRA-WWWW-WWWW-WWWW-WWWW" c5_user
                "HW-W" Hnd eq_refl eq_refl Hk eq_refl Hh) as H.
  cbv zeta in H.
  destruct H as (_ & _ & _ & _ & _ & H1 & _ & H2 & _ & _ & H3).
  split; [apply H1|]. split; [apply H2 | apply H3].
Defined.

(** ** Adding time, taking it back, and removing the subscription *)

(** X5.  Adding h > 0 hours to an existing user gives an expiry of
    max(old expiry, now) + h hours, which is after now, and a tier that is
    never 0: the requested tier when one is given, else the user's tier, else
    1.  Removing the same h hours at a time not after max(old expiry, now)
    brings the expiry back to max(old expiry, now) and keeps the tier. *)
Theorem add_time_then_remove now now' d uid user h t :
  findUser_id d uid = Some user ->
  0 < h ->
  let d1 := snd (add_time now d uid h t) in
  exists u1,
    findUser_id d1 uid = Some u1
    /\ fst (add_time now d uid h t) = Some (subscription_expires u1)
    /\ subscription_expires u1 == Qmax (subscription_expires user) now + h * hour_ms
    /\ now < subscription_expires u1
    /\ (0 < subscription_tier u1)%nat
    /\ (forall n, t = Some (S n) -> subscription_tier u1 = S n)
    /\ (t = None \/ t = Some 0%nat ->
        subscription_tier u1
        = if Nat.eqb (subscription_tier user) 0 then 1%nat
          else subscription_tier user)
    /\ (now' <= Qmax (subscription_expires user) now ->
        exists u2,
          findUser_id (snd (remove_hours now' d1 uid (Some h))) uid = Some u2
          /\ subscription_expires u2 == Qmax (subscription_expires user) now
          /\ subscription_tier u2 = subscription_tier u1).
Proof.
  intros Hf Hh d1.
  set (e1 := Qmax (subscription_expires user) now + h * 3600 * 1000).
  set (t1 := match t with
             | Some (S n) => S n
             | _ => match subscription_tier user with
                    | S n => S n
                    | O => 1%nat
                    end
             end).
  assert (Hadd : add_time now d uid h t
                 = (Some e1, updateUser d uid [SetExpires e1; SetTier t1])).
  { unfold add_time. now rewrite Hf. }
  set (u1 := apply_updates user [SetExpires e1; SetTier t1]).
  assert (Hf1 : findUser_id d1 uid = Some u1).
  { unfold d1. rewrite Hadd. cbn [snd]. now apply findUser_id_updateUser. }
  assert (Hu1 : subscription_expires u1 = e1 /\ subscription_tier u1 = t1)
    by (unfold u1; destruct user; split; reflexivity).
  destruct Hu1 as [He1 Ht1].
  assert (Hmax : now <= Qmax (subscription_expires user) now) by apply Q.le_max_r.
  exists u1. split; [exact Hf1|].
  split; [rewrite Hadd, He1; reflexivity|].
  split; [rewrite He1; unfold e1, hour_ms; ring|].
  split; [rewrite He1; unfold e1; lra|].
  split.
  { rewrite Ht1. unfold t1. destruct t as [[|n]|];
      destruct (subscription_tier user); lia. }
  split; [intros n ->; now rewrite Ht1|].
  split.
  { intros Ht. rewrite Ht1. unfold t1.
    destruct Ht as [-> | ->]; now destruct (subscription_tier user). }
  intros Hnow'.
  unfold remove_hours. rewrite Hf1.
  assert (Hn : num_or (Some h) 0 = h).
  { unfold num_or. destruct (Qeq_bool h 0) eqn:E; [|reflexivity].
    apply Qeq_bool_iff in E. lra. }
  rewrite Hn.
  assert (Hpos : Qle_bool h 0 = false).
  { destruct (Qle_bool h 0) eqn:E; [|reflexivity].
    apply Qle_bool_iff in E. lra. }
  rewrite Hpos, He1.
  assert (Hcmp : Qltb (e1 - h * 3600 * 1000) now' = false).
  { apply Qltb_ge. unfold e1. lra. }
  rewrite Hcmp. cbn [snd].
  exists (apply_updates u1 [SetExpires (e1 - h * 3600 * 1000)]).
  split; [now apply findUser_id_updateUser|].
  assert (Hset : forall (x : User) e,
             subscription_expires (apply_updates x [SetExpires e]) = e
             /\ subscription_tier (apply_updates x [SetExpires e])
                = subscription_tier x)
    by (intros x e; destruct x; split; reflexivity).
  destruct (Hset u1 (e1 - h * 3600 * 1000)) as [-> ->].
  split; [unfold e1; ring | reflexivity].
Qed.

Lemma add_time_then_remove_witness :
  exists u2,
    findUser_id
      (snd (remove_hours c3_now
              (snd (add_time c3_now c3_db "u-lapsed" 3 None))
              "u-lapsed" (Some 3))) "u-lapsed" = Some u2
    /\ subscription_expires u2 == c3_now
    /\ subscription_tier u2 = 1%nat.
Proof.
  assert (Hh : 0 < 3) by reflexivity.
  destruct (add_time_then_remove c3_now c3_now c3_db "u-lapsed" c3_lapsed 3 None
              eq_refl Hh)
    as (u1 & _ & _ & _ & _ & _ & _ & Ht & Hback).
  assert (Hle : c3_now <= Qmax (subscription_expires c3_lapsed) c3_now)
    by apply Q.le_max_r.
  destruct (Hback Hle) as (u2 & Hf2 & He2 & Ht2).
  exists u2. split; [exact Hf2|]. split.
  - rewrite He2. apply Q.max_r. vm_compute. discriminate.
  - rewrite Ht2. rewrite (Ht (or_introl eq_refl)). reflexivity.
Defined.



(** ** The capacity display *)

Lemma In_insert_by_expires x y l :
  In x (insert_by_expires y l) <-> x = y \/ In x l.
Proof.
  induction l as [|z l IH]; simpl; [intuition|].
  destruct (Qle_bool _ _); simpl; [intuition|].
  rewrite IH. intuition.
Qed.

Lemma In_sort_by_expires x l : In x (sort_by_expires l) <-> In x l.
Proof.
  induction l as [|y l IH]; simpl; [tauto|].
  rewrite In_insert_by_expires, IH. intuition.
Qed.

Lemma length_insert_by_expires y l :
  List.length (insert_by_expires y l) = S (List.length l).
Proof.
  induction l as [|z l IH]; simpl; [reflexivity|].
  destruct (Qle_bool _ _); simpl; [reflexivity | now rewrite IH].
Qed.

Lemma length_sort_by_expires l :
  List.length (sort_by_expires l) = List.length l.
Proof.
  induction l as [|y l IH]; simpl; [reflexivity|].
  now rewrite length_insert_by_expires, IH.
Qed.

Lemma least_first_insert y l :
  least_first l -> least_first (insert_by_expires y l).
Proof.
  destruct l as [|z l]; simpl; [intros _ x []|].
  intros Hz. destruct (Qle_bool _ _) eqn:E.
  - apply Qle_bool_iff in E. intros x [<-|Hx]; [exact E|].
    apply Qle_trans with (subscription_expires z); [exact E | now apply Hz].
  - assert (Hlt : subscription_expires z < subscription_expires y).
    { apply Qnot_le_lt. intros Hle. apply Qle_bool_iff in Hle. congruence. }
    intros x Hx. apply In_insert_by_expires in Hx.
    destruct Hx as [->|Hx]; [now apply Qlt_le_weak | now apply Hz].
Qed.

Lemma least_first_sort l : least_first (sort_by_expires l).
Proof.
  induction l as [|y l IH]; simpl; [exact I | now apply least_first_insert].
Qed.

Lemma filter_tier_active now t us :
  (0 < t)%nat ->
  filter (fun u => Nat.eqb (subscription_tier u) t)
    (filter (fun u => Nat.ltb 0 (subscription_tier u)
                      && Qltb now (subscription_expires u)) us)
  = filter (on_tier_now now t) us.
Proof.
  intros Ht. induction us as [|u us IH]; simpl; [reflexivity|].
  unfold on_tier_now at 1.
  destruct (Nat.eqb (subscription_tier u) t) eqn:E.
  - apply Nat.eqb_eq in E.
    assert (H0 : Nat.ltb 0 (subscription_tier u) = true)
      by (apply Nat.ltb_lt; lia).
    rewrite H0. simpl.
    destruct (Qltb now (subscription_expires u)); simpl.
    + apply Nat.eqb_eq in E. rewrite E. now rewrite IH.
    + exact IH.
  - destruct (_ && _); simpl; [rewrite E|]; exact IH.
Qed.

Lemma length_filter_le {A : Type} (f g : A -> bool) (l : list A) :
  (forall x, f x = true -> g x = true) ->
  (List.length (filter f l) <= List.length (filter g l))%nat.
Proof.
  intros Hfg. induction l as [|x l IH]; simpl; [lia|].
  destruct (f x) eqn:Ef.
  - rewrite (Hfg x Ef). simpl. lia.
  - destruct (g x); simpl; lia.
Qed.

(** X7.  For every configured tier t of 1 to 5 the capacity display has an
    entry whose activeUsers is the number of users on tier t with an expiry
    after now and whose maxSlots is plan.slots || 2.  nextSlotMs is missing
    exactly when no such user exists; otherwise it is positive, it is the
    time left of one of these users, and no such user has less time left.
    The count never falls below the number that Subscribe compares with the
    capacity, so an eligible request for a tier that the display shows with
    a free slot is never answered SlotsFull. *)
Theorem slots_status_spec now d t plan :
  (1 <= t <= 5)%nat ->
  lookup_plan t (getPlans d) = Some plan ->
  let st := slot_status_of now d t plan in
  In (t, st) (slots_status now d)
  /\ st_activeUsers st = List.length (filter (on_tier_now now t) (users d))
  /\ st_maxSlots st = maxSlots_of plan
  /\ (st_nextSlotMs st = None <-> st_activeUsers st = 0%nat)
  /\ (forall m, st_nextSlotMs st = Some m ->
        0 < m
        /\ (exists u, In u (users d) /\ subscription_tier u = t
                      /\ m = subscription_expires u - now)
        /\ (forall u, In u (users d) -> subscription_tier u = t ->
                      now < subscription_expires u ->
                      m <= subscription_expires u - now))
  /\ (forall uid, (activeUsersOnTier_of now d t uid <= st_activeUsers st)%nat)
  /\ (forall rq user h a m,
        Eligible d rq user plan h -> req_tier rq = t ->
        (Z.of_nat (st_activeUsers st) < st_maxSlots st)%Z ->
        response (subscribe now d rq) <> SlotsFull a m).
Proof.
  intros Ht Hp st.
  assert (Hpos : (0 < t)%nat) by lia.
  assert (Htu : forall u, In u (tierUsers_of now d t)
                          <-> In u (users d) /\ subscription_tier u = t
                              /\ now < subscription_expires u).
  { intros u. unfold tierUsers_of.
    rewrite In_sort_by_expires, (filter_tier_active now t _ Hpos), filter_In.
    unfold on_tier_now. rewrite andb_true_iff, Nat.eqb_eq, Qltb_lt. tauto. }
  assert (Hlen : st_activeUsers st
                 = List.length (filter (on_tier_now now t) (users d))).
  { unfold st, slot_status_of, tierUsers_of. cbn [st_activeUsers].
    now rewrite length_sort_by_expires, (filter_tier_active now t _ Hpos). }
  assert (Hexcl : forall uid,
             (activeUsersOnTier_of now d t uid <= st_activeUsers st)%nat).
  { intros uid. rewrite Hlen. unfold activeUsersOnTier_of.
    apply length_filter_le. intros u. unfold active_on_tier, on_tier_now.
    rewrite !andb_true_iff. tauto. }
  split.
  { unfold slots_status. apply in_flat_map. exists t. split.
    - destruct Ht as [H1 H5].
      do 6 (destruct t as [|t]; [simpl; try lia; tauto|]). lia.
    - rewrite Hp. now left. }
  split; [exact Hlen|]. split; [reflexivity|].
  split.
  { unfold st, slot_status_of. cbn [st_nextSlotMs st_activeUsers].
    destruct (tierUsers_of now d t); simpl; split; intros H;
      try reflexivity; discriminate. }
  split.
  { intros m. unfold st, slot_status_of. cbn [st_nextSlotMs].
    pose proof (least_first_sort
                  (filter (fun u => Nat.eqb (subscription_tier u) t)
                     (filter (fun u => Nat.ltb 0 (subscription_tier u)
                                       && Qltb now (subscription_expires u))
                             (users d)))) as Hleast.
    fold (tierUsers_of now d t) in Hleast.
    destruct (tierUsers_of now d t) as [|first rest] eqn:E; [discriminate|].
    intros [= <-].
    assert (Hfirst : In first (first :: rest)) by (now left).
    apply Htu in Hfirst. destruct Hfirst as (Hin & Htier & Hexp).
    split; [lra|]. split; [exists first; auto|].
    intros u Hu Hut Hue.
    assert (Hmem : In u (first :: rest)) by (apply Htu; auto).
    destruct Hmem as [<-|Hmem]; [lra|].
    simpl in Hleast. specialize (Hleast u Hmem). lra. }
  split; [exact Hexcl|].
  intros rq user h a m Hel Hrt Hfree.
  rewrite (subscribe_eligible now _ _ _ _ _ Hel). unfold after_admission.
  rewrite Hrt.
  assert (Hslot : Z.leb (maxSlots_of plan)
                    (Z.of_nat (activeUsersOnTier_of now d t (id user))) = false).
  { apply Z.leb_gt. specialize (Hexcl (id user)).
    change (st_maxSlots st) with (maxSlots_of plan) in Hfree. lia. }
  rewrite Hslot.
  destruct (Qltb _ _); [cbn [response reply]; discriminate|].
  destruct (convertedHours_of now d user plan); cbn [response reply];
    discriminate.
Qed.

Lemma slots_status_spec_witness :
  st_activeUsers (slot_status_of c2_now c2_db 1 (mkPlan "Bronze" 1 1 2 false true))
  = 2%nat
  /\ exists m,
       st_nextSlotMs (slot_status_of c2_now c2_db 1
                        (mkPlan "Bronze" 1 1 2 false true)) = Some m
       /\ m == 5 * hour_ms.
Proof.
  assert (Ht : (1 <= 1 <= 5)%nat) by lia.
  pose proof (slots_status_spec c2_now c2_db 1 (mkPlan "Bronze" 1 1 2 false true)
                Ht eq_refl) as H.
  cbv zeta in H. destruct H as (_ & Hlen & _).
  split; [rewrite Hlen; reflexivity|].
  eexists. split; [vm_compute; reflexivity | vm_compute; reflexivity].
Defined.

(** ** Pausing over time, and the lock *)






(** ** What the dashboard shows *)



(** ** The joiner's validation *)

Lemma str_opt_eqb_eq (a b : option string) : str_opt_eqb a b = true -> a = b.
Proof.
  destruct a, b; simpl; try discriminate; try reflexivity.
  intros H. apply String.eqb_eq in H. now subst.
Qed.

(** X10.  The joiner's validation answers valid only for a user who passes
    the licence validation with the same request and who is neither paused
    nor under the global pause.  In particular it never answers valid for a
    user whose bound device is in BanSet, although it does not look the
    bound device up.  Conversely, when the licence validation answers Valid
    and no pause applies, the joiner's validation answers valid with the
    same tier and plan. *)
Theorem joiner_validate_agrees now d key hw rb :
  (forall t p hl ex,
     fst (joiner_validate now d key hw rb) = JValid t p hl ex ->
     global_paused d = false
     /\ fst (validate now d key hw rb) = Valid t p
     /\ exists k user,
          key = Some k /\ findUser_license_key d k = Some user
          /\ paused user = false
          /\ banned_device d (hwid user) = false
          /\ (warnings user < 2)%nat
          /\ t = subscription_tier user
          /\ ex = subscription_expires user /\ now < ex
          /\ hl = (ex - now) / hour_ms)
  /\ (forall t p,
        fst (validate now d key hw rb) = Valid t p ->
        global_paused d = false ->
        (forall k user, key = Some k -> findUser_license_key d k = Some user ->
                        paused user = false) ->
        exists hl ex, fst (joiner_validate now d key hw rb) = JValid t p hl ex).
Proof.
  split.
  - intros t p hl ex. unfold joiner_validate, validate.
    destruct key as [k|]; [|discriminate].
    destruct (negb (truthy (Some k))); [discriminate|].
    destruct (banned_device d hw) eqn:Hb; [discriminate|].
    destruct (findUser_license_key d k) as [user|] eqn:Hf; [|discriminate].
    destruct (Nat.leb 2 (warnings user)) eqn:Hw; [discriminate|].
    destruct (Qltb now (subscription_expires user)) eqn:He; [|discriminate].
    cbn [negb].
    destruct (global_paused d) eqn:Hg; [discriminate|].
    destruct (paused user) eqn:Hp; [discriminate|]. cbn [orb].
    destruct (truthy (hwid user) && negb (str_opt_eqb (hwid user) hw)) eqn:Hm;
      [discriminate|].
    cbn [fst]. intros [= <- <- <- <-].
    assert (Hbu : banned_device d (hwid user) = false).
    { destruct (banned_device d (hwid user)) eqn:E; [|reflexivity].
      assert (Ht : truthy (hwid user) = true).
      { apply banned_device_spec in E. destruct E as (s & Hs & Hne & _).
        apply truthy_spec. now exists s. }
      rewrite Ht in Hm. simpl in Hm. apply negb_false_iff in Hm.
      apply str_opt_eqb_eq in Hm. rewrite Hm in E. congruence. }
    rewrite Hbu. cbn [fst].
    split; [reflexivity|]. split; [reflexivity|].
    exists k, user. apply Nat.leb_gt in Hw. apply Qltb_lt in He.
    repeat split; auto.
  - intros t p. unfold joiner_validate, validate.
    destruct key as [k|]; [|discriminate].
    destruct (negb (truthy (Some k))); [discriminate|].
    destruct (banned_device d hw); [discriminate|].
    destruct (findUser_license_key d k) as [user|] eqn:Hf; [|discriminate].
    destruct (Nat.leb 2 (warnings user)); [discriminate|].
    destruct (banned_device d (hwid user)); [discriminate|].
    destruct (negb (Qltb now (subscription_expires user))); [discriminate|].
    destruct (truthy (hwid user) && negb (str_opt_eqb (hwid user) hw));
      [discriminate|].
    cbn [fst]. intros [= <- <-] Hg Hp.
    rewrite Hg, (Hp k user eq_refl Hf). cbn [orb fst].
    eexists _, _. reflexivity.
Qed.

(** ** Lock-all outlives the global pause *)

Lemma find_map_preserving {A : Type} (p : A -> bool) (f : A -> A) (l : list A) :
  (forall x, p (f x) = p x) ->
  find p (map f l) = option_map f (find p l).
Proof.
  intros Hpf. induction l as [|x l IH]; simpl; [reflexivity|].
  rewrite Hpf. destruct (p x); [reflexivity | exact IH].
Qed.

Lemma lock_updates_fields (u : User) :
  let u' := apply_updates u (lock_updates true u) in
  paused u' = true /\ pause_locked u' = true
  /\ id u' = id u /\ license_key u' = license_key u
  /\ subscription_expires u' = subscription_expires u
  /\ subscription_tier u' = subscription_tier u
  /\ warnings u' = warnings u.
Proof.
  unfold lock_updates. destruct u as [i di k h r b t e w p pl ptr pa ur hh la].
  destruct p; repeat split; reflexivity.
Qed.

(** X11.  While the global pause is on, lock-all turns every user who has a
    running subscription and is not yet locked into a paused and locked
    user, and that state outlives the global pause: after the flag is
    cleared, the pause poll for the user's key still answers paused, the
    user's own unpause is refused as locked, and the joiner's validation is
    not valid. *)
Theorem lock_all_outlives_global_pause now d k user :
  global_paused d = true ->
  NoDup (map id (users d)) ->
  k <> EmptyString -> findUser_license_key d k = Some user ->
  id user <> EmptyString ->
  (0 < subscription_tier user)%nat ->
  now < subscription_expires user ->
  pause_locked user = false ->
  let d2 := snd (pause_all (snd (lock_all_paused now d))) in
  global_paused d2 = false
  /\ (exists u1, findUser_license_key d2 k = Some u1
                 /\ paused u1 = true /\ pause_locked u1 = true)
  /\ (forall hw, check_pause d2 (Some k) hw = PausedByAdmin)
  /\ (forall t, unpause t d2 (Some (id user)) = (PauseLocked, d2))
  /\ (forall t hw rb tier p hl ex,
        fst (joiner_validate t d2 (Some k) hw rb) <> JValid tier p hl ex).
Proof.
  intros Hg Hnd Hk Hf Hid Ht He Hl d2.
  set (sel := fun u => Nat.ltb 0 (subscription_tier u)
                       && Qltb now (subscription_expires u)
                       && negb (pause_locked u)).
  set (f := fun u => if sel u then apply_updates u (lock_updates true u) else u).
  assert (Ed2 : d2 = set_global_paused (set_users d (map f (users d))) false).
  { unfold d2, pause_all. cbn [snd].
    rewrite (lock_all_paused_global now d Hg Hnd). fold sel. fold f.
    unfold set_global_paused, set_users. cbn. now rewrite Hg. }
  assert (Hsel : sel user = true).
  { unfold sel. apply Nat.ltb_lt in Ht. apply Qltb_lt in He.
    now rewrite Ht, He, Hl. }
  assert (Hfk : forall x, license_key (f x) = license_key x).
  { intros x. unfold f. destruct (sel x); [|reflexivity].
    now destruct (lock_updates_fields x) as (_ & _ & _ & H & _). }
  assert (Hfi : forall x, id (f x) = id x).
  { intros x. unfold f. destruct (sel x); [|reflexivity].
    now destruct (lock_updates_fields x) as (_ & _ & H & _). }
  set (u1 := apply_updates user (lock_updates true user)).
  assert (Hfu : f user = u1) by (unfold f; now rewrite Hsel).
  destruct (lock_updates_fields user) as (Hp1 & Hl1 & _ & _ & _ & _ & Hw1).
  fold u1 in Hp1, Hl1, Hw1.
  assert (Hf2 : findUser_license_key d2 k = Some u1).
  { rewrite Ed2. unfold findUser_license_key in *.
    destruct (String.eqb k EmptyString); [discriminate|]. cbn [users set_users set_global_paused].
    rewrite (find_map_preserving _ f);
      [now rewrite Hf; cbn [option_map]; rewrite Hfu|].
    intros x. now rewrite Hfk. }
  assert (Hfid2 : findUser_id d2 (id user) = Some u1).
  { pose proof (findUser_id_of_In d user Hnd
                  (findUser_license_key_In _ _ _ Hf) Hid) as Hfid.
    rewrite Ed2. unfold findUser_id in *.
    destruct (String.eqb (id user) EmptyString); [discriminate|].
    cbn [users set_users set_global_paused].
    rewrite (find_map_preserving _ f);
      [now rewrite Hfid; cbn [option_map]; rewrite Hfu|].
    intros x. now rewrite Hfi. }
  assert (Hg2 : global_paused d2 = false) by (now rewrite Ed2).
  assert (Hkey : truthy (Some k) = true) by (apply truthy_spec; now exists k).
  split; [exact Hg2|].
  split; [exists u1; repeat split; assumption|].
  split.
  { intros hw. unfold check_pause. now rewrite Hg2, Hkey, Hf2, Hp1. }
  split.
  { intros t. unfold unpause. now rewrite Hfid2, Hp1, Hl1. }
  intros t hw rb tier p hl ex. unfold joiner_validate.
  rewrite Hkey. cbn [negb].
  destruct (banned_device d2 hw); [cbn [fst]; discriminate|].
  rewrite Hf2.
  destruct (Nat.leb 2 (warnings u1)); [cbn [fst]; discriminate|].
  destruct (negb _); [cbn [fst]; discriminate|].
  rewrite Hp1, orb_true_r. cbn [fst]. discriminate.
Qed.

Lemma lock_all_outlives_global_pause_witness :
  check_pause
    (snd (pause_all (snd (lock_all_paused (c6_now + 2000) c6_db))))
    (Some "ULTRA-GGGG-GGGG-GGGG-GGGG"%string) None = PausedByAdmin.
Proof.
  assert (Hnd : NoDup (map id (users c6_db))).
  { vm_compute. repeat constructor. simpl. tauto. }
  assert (Hk : "ULTRA-GGGG-GGGG-GGGG-GGGG"%string <> EmptyString) by discriminate.
  assert (Hf : exists user,
             findUser_license_key c6_db "ULTRA-GGGG-GGGG-GGGG-GGGG" = Some user
             /\ id user <> EmptyString
             /\ (0 < subscription_tier user)%nat
             /\ c6_now + 2000 < subscription_expires user
             /\ pause_locked user = false).
  { eexists. split; [vm_compute; reflexivity|].
    split; [discriminate|]. split; [simpl; lia|].
    split; [vm_compute; reflexivity | reflexivity]. }
  destruct Hf as (user & Hf & Hid & Ht & He & Hl).
  destruct (lock_all_outlives_global_pause (c6_now + 2000) c6_db _ user
              eq_refl Hnd Hk Hf Hid Ht He Hl) as (_ & _ & Hc & _).
  apply Hc.
Defined.

(** ** The scan log *)





(** ** Servers reported by the scanners *)

Lemma str_opt_eqb_neq (a b : option string) : str_opt_eqb a b = false -> a <> b.
Proof.
  intros H E. subst b. destruct a as [x|]; simpl in H; [|discriminate].
  now rewrite String.eqb_refl in H.
Qed.

Lemma NoDup_firstn {A : Type} (n : nat) (l : list A) :
  NoDup l -> NoDup (firstn n l).
Proof.
  revert n. induction l as [|x l IH]; intros n Hnd; [now rewrite firstn_nil|].
  destruct n as [|n]; simpl; [constructor|].
  inversion Hnd as [|? ? Hnotin Hnd']; subst. constructor; [|now apply IH].
  intros Hin. apply Hnotin.
  rewrite <- (firstn_skipn n l). apply in_or_app. now left.
Qed.

Lemma In_firstn {A : Type} (n : nat) (l : list A) (x : A) :
  In x (firstn n l) -> In x l.
Proof.
  intros H. rewrite <- (firstn_skipn n l). apply in_or_app. now left.
Qed.

(** X13.  An accepted server report becomes the first stored server, stamped
    with the time of the request.  Afterwards at most 50 servers are stored,
    every one of them was reported less than thirty minutes ago, every one
    but the first was stored before, and job ids stay pairwise distinct when
    they were so before.  A report with another key is refused and changes
    nothing. *)
Theorem stored_servers_fresh_and_distinct now env s api server :
  let r := post_server now env s api server in
  let stamped := mkServer (jobId server) (bestName server) (bestValue server) now in
  (str_opt_eqb api env = false -> r = (None, s))
  /\ (str_opt_eqb api env = true ->
      (exists older, servers (snd r) = stamped :: older
                     /\ incl older (servers s)
                     /\ ~ In (jobId server) (map jobId older))
      /\ fst r = Some (List.length (servers (snd r)))
      /\ (List.length (servers (snd r)) <= 50)%nat
      /\ Forall (fun x => now - thirty_min < srv_timestamp x) (servers (snd r))
      /\ (NoDup (map jobId (servers s)) -> NoDup (map jobId (servers (snd r))))
      /\ core (snd r) = core s).
Proof.
  intros r stamped.
  split; [intros E; unfold r, post_server; now rewrite E|].
  intros E.
  set (others := filter (fun x => negb (str_opt_eqb (jobId x) (jobId server)))
                        (servers s)).
  set (fresh := fun x => Qltb (now - thirty_min) (srv_timestamp x)).
  assert (Hr : r = (Some (List.length (slice_first 50 (filter fresh (stamped :: others)))),
                    set_servers s (slice_first 50 (filter fresh (stamped :: others)))))
    by (unfold r, post_server; now rewrite E).
  assert (Hfs : fresh stamped = true).
  { unfold fresh, stamped. cbn [srv_timestamp]. apply Qltb_lt.
    unfold thirty_min. lra. }
  assert (Hkept : slice_first 50 (filter fresh (stamped :: others))
                  = stamped :: firstn 49 (filter fresh others)).
  { simpl filter. rewrite Hfs. reflexivity. }
  assert (Hold : forall x, In x (firstn 49 (filter fresh others)) ->
                           In x (servers s) /\ jobId x <> jobId server
                           /\ fresh x = true).
  { intros x Hx. apply In_firstn in Hx. apply filter_In in Hx.
    destruct Hx as [Hx Hfx]. unfold others in Hx. apply filter_In in Hx.
    destruct Hx as [Hx Hne]. apply negb_true_iff in Hne.
    apply str_opt_eqb_neq in Hne. auto. }
  rewrite Hr. cbn [fst snd servers set_servers core]. rewrite Hkept.
  split.
  { exists (firstn 49 (filter fresh others)). split; [reflexivity|].
    split.
    - intros x Hx. now apply Hold.
    - intros Hin. apply in_map_iff in Hin. destruct Hin as (x & Hj & Hx).
      destruct (Hold x Hx) as (_ & Hne & _). contradiction. }
  split; [reflexivity|].
  split.
  { cbn [List.length].
    pose proof (firstn_le_length 49 (filter fresh others)). lia. }
  split.
  { constructor; [apply Qltb_lt; exact Hfs|].
    apply Forall_forall. intros x Hx. destruct (Hold x Hx) as (_ & _ & Hf).
    apply Qltb_lt. exact Hf. }
  split; [|reflexivity].
  intros Hnd. cbn [map jobId]. constructor.
  - intros Hin. apply in_map_iff in Hin. destruct Hin as (x & Hj & Hx).
    destruct (Hold x Hx) as (_ & Hne & _). contradiction.
  - rewrite <- firstn_map. apply NoDup_firstn.
    apply NoDup_map_filter. unfold others. now apply NoDup_map_filter.
Qed.

(** ** Manual payments are credited once *)

Lemma take_payment_split pid l p rest :
  take_payment pid l = Some (p, rest) ->
  pay_id p = pid
  /\ exists l1 l2, l = l1 ++ p :: l2 /\ rest = l1 ++ l2.
Proof.
  revert p rest. induction l as [|x l IH]; intros p rest; simpl; [discriminate|].
  destruct (String.eqb (pay_id x) pid) eqn:E.
  - intros [= <- <-]. apply String.eqb_eq in E. split; [exact E|].
    exists [], l. now split.
  - destruct (take_payment pid l) as [[q rest']|]; [|discriminate].
    intros [= <- <-]. destruct (IH q rest' eq_refl) as (Hid & l1 & l2 & -> & ->).
    split; [exact Hid|]. exists (x :: l1), l2. now split.
Qed.

Lemma existsb_txId_false tx l :
  existsb (fun p => String.eqb (pay_txId p) tx) l = false ->
  ~ In tx (map pay_txId l).
Proof.
  intros H Hin. apply in_map_iff in Hin. destruct Hin as (p & Hp & Hin).
  assert (E : existsb (fun p => String.eqb (pay_txId p) tx) l = true).
  { apply existsb_exists. exists p. split; [exact Hin|].
    rewrite Hp. apply String.eqb_refl. }
  congruence.
Qed.

Lemma existsb_used_false tx l :
  existsb (String.eqb tx) l = false -> ~ In tx l.
Proof.
  intros H Hin.
  assert (E : existsb (String.eqb tx) l = true).
  { apply existsb_exists. exists tx. split; [exact Hin | apply String.eqb_refl]. }
  congruence.
Qed.

Lemma payment_submit_cases now ns s session amount txId crypto :
  snd (payment_submit now ns s session amount txId crypto) = s
  \/ exists p tx,
       txId = Some tx /\ pay_txId p = tx
       /\ ~ In tx (map pay_txId (pending_payments s))
       /\ ~ In tx (used_transactions s)
       /\ snd (payment_submit now ns s session amount txId crypto)
          = set_pending_payments s (pending_payments s ++ [p]).
Proof.
  unfold payment_submit.
  destruct session as [ruser|]; [|now left].
  destruct amount as [a|]; [|now left].
  destruct (_ || _); [now left|].
  destruct txId as [tx|]; [|now left].
  destruct (negb (truthy (Some tx)) || _); [now left|].
  destruct (existsb (fun p => String.eqb (pay_txId p) tx) (pending_payments s))
    eqn:E1; [now left|].
  destruct (existsb (String.eqb tx) (used_transactions s)) eqn:E2; [now left|].
  cbn [orb snd]. right.
  exists (mkPayment ns (id ruser) (discord_id ruser) a tx
            (if truthy crypto
             then match crypto with Some c => c | None => "btc"%string end
             else "btc"%string) now), tx.
  split; [reflexivity|]. split; [reflexivity|].
  split; [now apply existsb_txId_false|].
  split; [now apply existsb_used_false | reflexivity].
Qed.

Lemma payment_approve_cases s pid :
  snd (payment_approve s pid) = s
  \/ exists p u l1 l2,
       pay_id p = pid
       /\ pending_payments s = l1 ++ p :: l2
       /\ (findUser_id (core s) (pay_userId p) = Some u
           \/ (findUser_id (core s) (pay_userId p) = None
               /\ findUser_discord_id (core s) (pay_discord_id p) = Some u))
       /\ payment_approve s pid
          = (PaymentApproved (balance u + pay_amount p),
             mkStore (updateUser (core s) (id u)
                        [SetBalance (balance u + pay_amount p)])
                     (logs s) (servers s) (l1 ++ l2)
                     (used_transactions s ++ [pay_txId p])).
Proof.
  unfold payment_approve.
  destruct (take_payment pid (pending_payments s)) as [[p rest]|] eqn:Ht;
    [|now left].
  destruct (take_payment_split _ _ _ _ Ht) as (Hid & l1 & l2 & Hl & ->).
  destruct (findUser_id (core s) (pay_userId p)) as [u|] eqn:Hu.
  - right. exists p, u, l1, l2. repeat split; auto.
  - destruct (findUser_discord_id (core s) (pay_discord_id p)) as [u|] eqn:Hd;
      [|now left].
    right. exists p, u, l1, l2. repeat split; auto.
Qed.

Lemma payment_deny_cases s pid :
  snd (payment_deny s pid) = s
  \/ exists p l1 l2,
       pending_payments s = l1 ++ p :: l2
       /\ snd (payment_deny s pid) = set_pending_payments s (l1 ++ l2).
Proof.
  unfold payment_deny.
  destruct (take_payment pid (pending_payments s)) as [[p rest]|] eqn:Ht;
    [|now left].
  destruct (take_payment_split _ _ _ _ Ht) as (_ & l1 & l2 & Hl & ->).
  right. now exists p, l1, l2.
Qed.

Lemma NoDup_map_remove_mid {A B : Type} (f : A -> B) (l1 l2 : list A) (p : A) :
  NoDup (map f (l1 ++ p :: l2)) ->
  NoDup (map f (l1 ++ l2)) /\ ~ In (f p) (map f (l1 ++ l2)).
Proof.
  rewrite !map_app. simpl. apply NoDup_remove.
Qed.

(** Every payment request keeps the store sound, never forgets a used
    transaction, and never makes a used transaction pending. *)
Lemma pay_exec_sound op s :
  payments_sound s ->
  payments_sound (pay_exec op s)
  /\ incl (used_transactions s) (used_transactions (pay_exec op s)).
Proof.
  intros [Hnd Hused]. destruct op as [now ns session amount txId crypto|pid|pid];
    simpl.
  - destruct (payment_submit_cases now ns s session amount txId crypto)
      as [-> | (p & tx & _ & Hp & Hnp & Hnu & ->)];
      [split; [now split | apply incl_refl]|].
    split; [|apply incl_refl]. split; cbn [pending_payments used_transactions
                                            set_pending_payments].
    + rewrite map_app. simpl. apply NoDup_app; [exact Hnd| |].
      * repeat constructor. simpl. tauto.
      * intros x Hx [<-|[]]. rewrite Hp in Hx. contradiction.
    + intros q Hq. apply in_app_or in Hq. destruct Hq as [Hq|[<-|[]]];
        [now apply Hused | now rewrite Hp].
  - destruct (payment_approve_cases s pid)
      as [-> | (p & u & l1 & l2 & _ & Hl & _ & ->)];
      [split; [now split | apply incl_refl]|].
    cbn [snd]. rewrite Hl in Hnd.
    destruct (NoDup_map_remove_mid pay_txId l1 l2 p Hnd) as [Hnd' Hnotin].
    split; [|cbn; apply incl_appl, incl_refl].
    split; cbn [pending_payments used_transactions]; [exact Hnd'|].
    intros q Hq Hin. apply in_app_or in Hin. destruct Hin as [Hin|[E|[]]].
    + apply (Hused q); [|exact Hin]. rewrite Hl.
      apply in_app_or in Hq. apply in_or_app.
      destruct Hq; [now left | right; now right].
    + apply Hnotin. rewrite E. now apply in_map.
  - destruct (payment_deny_cases s pid) as [-> | (p & l1 & l2 & Hl & ->)];
      [split; [now split | apply incl_refl]|].
    split; [|apply incl_refl]. rewrite Hl in Hnd.
    destruct (NoDup_map_remove_mid pay_txId l1 l2 p Hnd) as [Hnd' _].
    split; cbn [pending_payments used_transactions set_pending_payments];
      [exact Hnd'|].
    intros q Hq. apply Hused. rewrite Hl.
    apply in_app_or in Hq. apply in_or_app.
    destruct Hq; [now left | right; now right].
Qed.

Lemma pay_run_sound trace s :
  payments_sound s ->
  payments_sound (pay_run trace s)
  /\ incl (used_transactions s) (used_transactions (pay_run trace s)).
Proof.
  revert s. induction trace as [|op rest IH]; intros s Hs; simpl;
    [split; [exact Hs | apply incl_refl]|].
  destruct (pay_exec_sound op s Hs) as [Hs1 Hi1].
  destruct (IH _ Hs1) as [Hs2 Hi2].
  split; [exact Hs2|]. eapply incl_tran; eassumption.
Qed.

Lemma payment_submit_used now ns s session amount tx crypto :
  In tx (used_transactions s) ->
  fst (payment_submit now ns s session amount (Some tx) crypto)
  <> PaymentSubmitted.
Proof.
  intros Hin. unfold payment_submit.
  destruct session; [|cbn [fst]; discriminate].
  destruct amount; [|cbn [fst]; discriminate].
  destruct (_ || _); [cbn [fst]; discriminate|].
  destruct (negb (truthy (Some tx)) || _); [cbn [fst]; discriminate|].
  assert (E : existsb (String.eqb tx) (used_transactions s) = true).
  { apply existsb_exists. exists tx. split; [exact Hin | apply String.eqb_refl]. }
  rewrite E, orb_true_r. cbn [fst]. discriminate.
Qed.

(** X14.  In a store where no transaction id is pending twice or pending
    after use, an approval credits the payment's amount to the balance of
    its user, takes the payment off the pending list and records its
    transaction id as used.  After that, through any sequence of
    submissions, approvals and denials, no pending payment ever carries that
    transaction id again and every submission of it is refused: a
    transaction is credited at most once. *)
Theorem payment_credited_once s pid nb :
  payments_sound s ->
  fst (payment_approve s pid) = PaymentApproved nb ->
  let s1 := snd (payment_approve s pid) in
  exists p u,
    In p (pending_payments s) /\ pay_id p = pid
    /\ (findUser_id (core s) (pay_userId p) = Some u
        \/ (findUser_id (core s) (pay_userId p) = None
            /\ findUser_discord_id (core s) (pay_discord_id p) = Some u))
    /\ nb = balance u + pay_amount p
    /\ core s1 = updateUser (core s) (id u) [SetBalance nb]
    /\ S (List.length (pending_payments s1)) = List.length (pending_payments s)
    /\ In (pay_txId p) (used_transactions s1)
    /\ (forall trace,
          payments_sound (pay_run trace s1)
          /\ (forall q, In q (pending_payments (pay_run trace s1)) ->
                        pay_txId q <> pay_txId p)
          /\ (forall now ns session amount crypto,
                fst (payment_submit now ns (pay_run trace s1) session amount
                                    (Some (pay_txId p)) crypto)
                <> PaymentSubmitted)).
Proof.
  intros Hs Hok s1.
  pose proof (pay_exec_sound (PApprove pid) s Hs) as [Hs1 _].
  simpl in Hs1. fold s1 in Hs1.
  destruct (payment_approve_cases s pid)
    as [E | (p & u & l1 & l2 & Hid & Hl & Hu & E)].
  - exfalso. unfold payment_approve in *.
    destruct (take_payment pid (pending_payments s)) as [[p rest]|];
      [|discriminate].
    destruct (match findUser_id (core s) (pay_userId p) with
              | Some u => Some u
              | None => findUser_discord_id (core s) (pay_discord_id p)
              end) as [u|]; [|discriminate].
    cbn [snd] in E.
    apply (f_equal (fun x => List.length (used_transactions x))) in E.
    cbn [used_transactions] in E. rewrite length_app in E. simpl in E. lia.
  - unfold s1 in *. rewrite E in *. cbn [fst snd] in *.
    injection Hok as <-.
    exists p, u. split; [rewrite Hl; apply in_or_app; right; now left|].
    split; [exact Hid|]. split; [exact Hu|]. split; [reflexivity|].
    split; [reflexivity|].
    split; [cbn [pending_payments]; rewrite Hl, !length_app; simpl; lia|].
    assert (Hin : In (pay_txId p)
                     (used_transactions
                        (mkStore (updateUser (core s) (id u)
                                    [SetBalance (balance u + pay_amount p)])
                                 (logs s) (servers s) (l1 ++ l2)
                                 (used_transactions s ++ [pay_txId p])))).
    { cbn [used_transactions]. apply in_or_app. right. now left. }
    split; [exact Hin|].
    intros trace. destruct (pay_run_sound trace _ Hs1) as [Hs2 Hi2].
    split; [exact Hs2|].
    split.
    + intros q Hq Etx. destruct Hs2 as [_ Hu2].
      apply (Hu2 q Hq). rewrite Etx. apply Hi2. exact Hin.
    + intros now ns session amount crypto.
      apply payment_submit_used. apply Hi2. exact Hin.
Qed.

Lemma payment_credited_once_witness :
  exists u,
    findUser_id (core (snd (payment_approve pay_store "1700000000000"))) "u-alice"
    = Some u
    /\ balance u == 15
    /\ fst (payment_submit 0 "1" (snd (payment_approve pay_store "1700000000000"))
                           (Some c1_alice) (Some 5)
                           (Some "tx-0123456789"%string) None)
       <> PaymentSubmitted.
Proof.
  assert (Hs : payments_sound pay_store).
  { split; simpl.
    - repeat constructor. simpl. tauto.
    - intros p _ []. }
  destruct (payment_credited_once pay_store "1700000000000" _ Hs eq_refl)
    as (p & u & Hin & _ & _ & _ & Hcore & _ & _ & Hlater).
  destruct Hin as [<-|[]].
  destruct (Hlater []) as (_ & _ & Hsub).
  eexists. split; [vm_compute; reflexivity|].
  split; [vm_compute; reflexivity|].
  apply (Hsub 0 "1"%string (Some c1_alice) (Some 5) None).
Defined.

(** ** Logging in *)

Lemma find_app_none {A : Type} (f : A -> bool) (l1 l2 : list A) :
  find f l1 = None -> find f (l1 ++ l2) = find f l2.
Proof.
  induction l1 as [|x l1 IH]; simpl; [reflexivity|].
  destruct (f x); [discriminate | exact IH].
Qed.

Lemma findUser_discord_id_app_new d p u :
  p <> EmptyString ->
  findUser_discord_id d p = None -> discord_id u = p ->
  findUser_discord_id (createUser d u) p = Some u.
Proof.
  unfold findUser_discord_id. intros Hp. apply String.eqb_neq in Hp. rewrite Hp.
  intros Hnone Hu. unfold createUser. cbn [users set_users].
  rewrite (find_app_none _ _ _ Hnone). simpl.
  rewrite Hu, String.eqb_refl. reflexivity.
Qed.

(** X15.  One account per Discord id.  The first login of a Discord id
    appends one user with the given uuid and a generated key, tier 0,
    balance 0, no warnings, no device and no pause.  Every later login of
    that Discord id finds this user and adds nobody; it leaves the
    subscription, the balance, the warnings and the device of every user as
    they were. *)
Theorem one_account_per_discord_id t1 t2 d p uuid draw uuid2 draw2 :
  p <> EmptyString ->
  findUser_discord_id d p = None ->
  let fresh := createdUser uuid p (generateLicenseKey draw) t1 in
  let d1 := login t1 d p uuid draw in
  let d2 := login t2 d1 p uuid2 draw2 in
  users d1 = users d ++ [fresh]
  /\ findUser_discord_id d1 p = Some fresh
  /\ (subscription_tier fresh = 0%nat /\ balance fresh = 0
      /\ subscription_expires fresh = 0 /\ warnings fresh = 0%nat
      /\ hwid fresh = None /\ paused fresh = false)
  /\ List.length (users d2) = List.length (users d1)
  /\ map identity (users d2) = map identity (users d1)
  /\ map (fun u => (subscription_tier u, subscription_expires u, balance u,
                    warnings u, hwid u, paused u)) (users d2)
     = map (fun u => (subscription_tier u, subscription_expires u, balance u,
                      warnings u, hwid u, paused u)) (users d1).
Proof.
  intros Hp Hnone fresh d1 d2.
  assert (Ed1 : d1 = createUser d fresh)
    by (unfold d1, login; now rewrite Hnone).
  assert (Hf1 : findUser_discord_id d1 p = Some fresh).
  { rewrite Ed1. now apply findUser_discord_id_app_new. }
  assert (Ed2 : d2 = updateUser d1 (id fresh) [SetLastActive t2])
    by (unfold d2, login; now rewrite Hf1).
  split; [now rewrite Ed1|]. split; [exact Hf1|].
  split; [repeat split; reflexivity|].
  rewrite Ed2. unfold updateUser. cbn [users set_users].
  split.
  { rewrite <- (length_map identity), map_identity_update_first.
    now rewrite length_map. }
  split; [apply map_identity_update_first|].
  set (kept := fun u : User =>
                 (subscription_tier u, subscription_expires u, balance u,
                  warnings u, hwid u, paused u)).
  assert (Hkept : forall x, kept (apply_updates x [SetLastActive t2]) = kept x)
    by (intros x; destruct x; reflexivity).
  generalize (users d1). intros us.
  induction us as [|x us IH]; cbn [update_first map]; [reflexivity|].
  destruct (String.eqb (id x) (id fresh)); cbn [map].
  - now rewrite Hkept.
  - now rewrite IH.
Qed.

Lemma one_account_per_discord_id_witness :
  List.length
    (users (login 2 (login 1 c5_db "d-new" "uuid-1" (fun _ => 0%nat))
                  "d-new" "uuid-2" (fun _ => 1%nat))) = 2%nat.
Proof.
  assert (Hp : "d-new"%string <> EmptyString) by discriminate.
  destruct (one_account_per_discord_id 1 2 c5_db "d-new" "uuid-1"
              (fun _ => 0%nat) "uuid-2" (fun _ => 1%nat) Hp eq_refl)
    as (Hu1 & _ & _ & Hlen & _).
  rewrite Hlen, Hu1. reflexivity.
Defined.

(** ** The format of licence keys *)

Lemma length_append (a b : string) :
  String.length (String.append a b) = (String.length a + String.length b)%nat.
Proof. induction a as [|c a IH]; simpl; [reflexivity | now rewrite IH]. Qed.

Lemma charAt_chars_length (i : nat) :
  (i < 36)%nat -> String.length (charAt chars i) = 1%nat.
Proof.
  intros Hi. do 36 (destruct i as [|i]; [reflexivity|]). lia.
Qed.

Lemma charAt_length_le (s : string) (i : nat) :
  (String.length (charAt s i) <= 1)%nat.
Proof. unfold charAt. destruct (String.get i s); simpl; lia. Qed.

(** X16.  A generated licence key starts with ULTRA- and is never empty,
    whatever the random draws; when every draw is an index into the 36
    characters, as [Math.floor(Math.random() * 36)] is, the key has exactly
    25 characters. *)
Theorem license_key_format (draw : nat -> nat) :
  String.prefix "ULTRA-" (generateLicenseKey draw) = true
  /\ generateLicenseKey draw <> EmptyString
  /\ (String.length (generateLicenseKey draw) <= 25)%nat
  /\ ((forall k, (draw k < 36)%nat) ->
      String.length (generateLicenseKey draw) = 25%nat).
Proof.
  assert (Hshape : exists rest, generateLicenseKey draw
                                = String.append "ULTRA-" rest).
  { unfold generateLicenseKey, key_group. cbn [fold_left Nat.ltb Nat.leb].
    eexists. cbn [String.append]. reflexivity. }
  destruct Hshape as (rest & Hshape).
  split; [rewrite Hshape; simpl; now destruct rest|].
  split; [rewrite Hshape; discriminate|].
  unfold generateLicenseKey, key_group. cbn [fold_left Nat.ltb Nat.leb].
  rewrite !length_append. cbn [String.length].
  split.
  - repeat match goal with
           | |- context [String.length (charAt chars ?i)] =>
               let H := fresh "H" in
               pose proof (charAt_length_le chars i) as H;
               generalize dependent (String.length (charAt chars i));
               intros
           end.
    lia.
  - intros Hd. rewrite !charAt_chars_length by apply Hd. reflexivity.
Qed.

(** ** A purchase never overfills a tier *)

Lemma count_id_le_1 uid us :
  NoDup (map id us) ->
  (List.length (filter (fun u => String.eqb (id u) uid) us) <= 1)%nat.
Proof.
  induction us as [|x us IH]; simpl; intros Hnd; [lia|].
  inversion Hnd as [|? ? Hnotin Hnd']; subst.
  destruct (String.eqb (id x) uid) eqn:E; [|now apply IH].
  apply String.eqb_eq in E. subst uid. simpl.
  assert (Hz : filter (fun u => String.eqb (id u) (id x)) us = []).
  { destruct (filter _ us) as [|y l] eqn:Ef; [reflexivity|].
    assert (Hy : In y (filter (fun u => String.eqb (id u) (id x)) us))
      by (rewrite Ef; now left).
    apply filter_In in Hy. destruct Hy as [Hy Hid].
    apply String.eqb_eq in Hid. exfalso. apply Hnotin. rewrite <- Hid.
    now apply in_map. }
  rewrite Hz. simpl. lia.
Qed.

Lemma count_on_tier_after_write now t uid (g : User -> User) us :
  (List.length
     (filter (on_tier_now now t)
        (map (fun u => if String.eqb (id u) uid then g u else u) us))
   <= List.length (filter (active_on_tier now t uid) us)
      + List.length (filter (fun u => String.eqb (id u) uid) us))%nat.
Proof.
  induction us as [|x us IH]; simpl; [lia|].
  unfold active_on_tier at 1. destruct (String.eqb (id x) uid) eqn:E.
  - rewrite andb_false_r. destruct (on_tier_now now t (g x)); simpl; lia.
  - rewrite andb_true_r.
    unfold on_tier_now at 1.
    destruct (Nat.eqb (subscription_tier x) t && Qltb now (subscription_expires x));
      simpl; lia.
Qed.

(** X17.  With distinct user ids, after a successful Subscribe to a tier the
    number of users on that tier with an expiry after now, the subscriber
    included, does not exceed the capacity plan.slots || 2 of the tier. *)
Theorem subscribe_never_overfills now d rq nb ex ha ch th sl :
  NoDup (map id (users d)) ->
  response (subscribe now d rq) = Subscribed nb ex ha ch th sl ->
  exists plan,
    PLANS d (req_tier rq) = Some plan
    /\ (Z.of_nat (List.length
                    (filter (on_tier_now now (req_tier rq))
                            (users (db_after (subscribe now d rq)))))
        <= maxSlots_of plan)%Z.
Proof.
  intros Hnd H.
  destruct (subscribe_success_inv _ _ _ _ _ _ _ _ _ H) as (user & plan & h & Hel).
  exists plan. split; [now destruct Hel|].
  rewrite (subscribe_eligible now _ _ _ _ _ Hel) in *.
  apply after_admission_success_inv in H.
  destruct H as (Hslot & _ & _ & _ & _ & _ & _ & _ & ->).
  unfold updateUser. cbn [users set_users].
  rewrite (update_first_as_map _ _ _ Hnd).
  pose proof (count_on_tier_after_write now (req_tier rq) (id user)
                (fun u => apply_updates u
                            [SetBalance nb; SetTier (req_tier rq); SetExpires ex])
                (users d)) as Hc.
  pose proof (count_id_le_1 (id user) (users d) Hnd) as H1.
  unfold activeUsersOnTier_of in Hslot. lia.
Qed.

Lemma subscribe_never_overfills_witness :
  exists plan,
    PLANS c1_db 3 = Some plan
    /\ (Z.of_nat (List.length
                    (filter (on_tier_now c1_now 3)
                            (users (db_after (subscribe c1_now c1_db c1_rq)))))
        <= maxSlots_of plan)%Z.
Proof.
  assert (Hnd : NoDup (map id (users c1_db))).
  { simpl. repeat constructor. simpl. tauto. }
  assert (Hr : exists nb ex ha ch th sl,
             response (subscribe c1_now c1_db c1_rq) = Subscribed nb ex ha ch th sl).
  { eexists _, _, _, _, _, _. cbv. reflexivity. }
  destruct Hr as (nb & ex & ha & ch & th & sl & Hr).
  exact (subscribe_never_overfills c1_now c1_db c1_rq nb ex ha ch th sl Hnd Hr).
Defined.

(** ** A purchase gives access *)






(** ** The plans route *)



(** ** Self-service balance and purchase *)




(** ** The client's slot countdown *)

Lemma append_m_not_Available (s : string) :
  (s ++ "m")%string <> "Available"%string.
Proof.
  intros H.
  do 9 (destruct s as [|? s]; [discriminate H|]; cbn [append] in H;
        injection H as _ H).
  destruct s; discriminate H.
Qed.

Lemma append_assoc_string (a b c : string) :
  ((a ++ b) ++ c)%string = (a ++ (b ++ c))%string.
Proof. induction a as [|x a IH]; cbn [append]; [reflexivity|now rewrite IH]. Qed.

Lemma floor_minutes_bounds (ms : Q) :
  inject_Z (Qfloor (ms / 60000)) * 60000 <= ms
  /\ ms < (inject_Z (Qfloor (ms / 60000)) + 1) * 60000.
Proof.
  assert (Hlo : inject_Z (Qfloor (ms / 60000)) <= ms / 60000) by apply Qfloor_le.
  assert (Hhi : ms / 60000 < inject_Z (Qfloor (ms / 60000) + 1)) by apply Qlt_floor.
  rewrite inject_Z_plus in Hhi. change (inject_Z 1) with 1 in Hhi.
  set (x := inject_Z (Qfloor (ms / 60000))) in *.
  assert (Hq : ms == ms / 60000 * 60000) by (field; discriminate).
  set (y := ms / 60000) in *.
  split.
  - rewrite Hq. apply Qmult_le_compat_r; [exact Hlo|discriminate].
  - rewrite Hq at 1. apply Qmult_lt_compat_r; [reflexivity|exact Hhi].
Qed.

Lemma minutes_split (t : Z) :
  (0 <= t)%Z ->
  (0 <= t / 1440 /\ 0 <= t mod 1440 / 60 < 24 /\ 0 <= t mod 60 < 60)%Z
  /\ (t / 1440 * 1440 + t mod 1440 / 60 * 60 + t mod 60 = t)%Z.
Proof. intros Ht. Z.div_mod_to_equations. lia. Qed.

(** X21.  For a positive number of milliseconds the countdown never reads
    Available: it shows days, hours and minutes with hours below 24 and
    minutes below 60, leaves out the leading units that are zero, and the
    parts add up to the whole minutes contained in the input, so less than
    one minute is lost (under a minute left reads 0m).  It reads Available
    exactly for a missing, zero or negative input. *)
Theorem slot_time_display (ms : Q) :
  0 < ms ->
  let total := Qfloor (ms / 60000) in
  (exists d h m : Z,
    (0 <= d /\ 0 <= h < 24 /\ 0 <= m < 60)%Z
    /\ (d * 1440 + h * 60 + m = total)%Z
    /\ formatSlotTime (Some ms)
       = (if (0 <? d)%Z
          then show d ++ "d " ++ show h ++ "h " ++ show m ++ "m"
          else if (0 <? h)%Z then show h ++ "h " ++ show m ++ "m"
          else show m ++ "m")%string)
  /\ inject_Z total * 60000 <= ms
  /\ ms < (inject_Z total + 1) * 60000
  /\ formatSlotTime (Some ms) <> "Available"%string
  /\ formatSlotTime None = "Available"%string
  /\ (forall ms' : Q, ms' <= 0 -> formatSlotTime (Some ms') = "Available"%string).
Proof.
  intros Hpos total.
  assert (Hb : Qle_bool ms 0 = false).
  { destruct (Qle_bool ms 0) eqn:E; [|reflexivity].
    apply Qle_bool_iff in E. lra. }
  destruct (floor_minutes_bounds ms) as [Hlo Hhi]. fold total in Hlo, Hhi.
  assert (Ht : (0 <= total)%Z).
  { change 0%Z with (Qfloor 0). apply Qfloor_resp_le.
    apply Qle_shift_div_l; lra. }
  assert (Hr1 : Z.rem total 1440 = (total mod 1440)%Z)
    by (apply Z.rem_mod_nonneg; lia).
  assert (Hr2 : Z.rem total 60 = (total mod 60)%Z)
    by (apply Z.rem_mod_nonneg; lia).
  assert (Hfmt : formatSlotTime (Some ms)
     = (if (0 <? total / 1440)%Z
        then show (total / 1440) ++ "d " ++ show (total mod 1440 / 60) ++ "h "
             ++ show (total mod 60) ++ "m"
        else if (0 <? total mod 1440 / 60)%Z
             then show (total mod 1440 / 60) ++ "h " ++ show (total mod 60) ++ "m"
             else show (total mod 60) ++ "m")%string).
  { unfold formatSlotTime. rewrite Hb. fold total. now rewrite Hr1, Hr2. }
  split.
  { exists (total / 1440)%Z, (total mod 1440 / 60)%Z, (total mod 60)%Z.
    destruct (minutes_split total Ht) as [Hbounds Hsum].
    split; [exact Hbounds|]. split; [exact Hsum|exact Hfmt]. }
  split; [exact Hlo|]. split; [exact Hhi|].
  split.
  { rewrite Hfmt.
    destruct (0 <? total / 1440)%Z; [|destruct (0 <? total mod 1440 / 60)%Z].
    - rewrite <- !append_assoc_string. apply append_m_not_Available.
    - rewrite <- !append_assoc_string. apply append_m_not_Available.
    - apply append_m_not_Available. }
  split; [reflexivity|].
  intros ms' Hle. unfold formatSlotTime.
  apply Qle_bool_iff in Hle. now rewrite Hle.
Qed.

Lemma slot_time_display_witness :
  formatSlotTime (Some 93784000) = "1d 2h 3m"%string
  /\ formatSlotTime (Some 93784000) <> "Available"%string.
Proof.
  split; [vm_compute; reflexivity|].
  exact (proj1 (proj2 (proj2 (proj2
           (slot_time_display 93784000 ltac:(reflexivity)))))).
Defined.
